(** * Gene-track and correlation-grid renderers: a shallow embedding

    This development embeds the computational content of

    - [ccan/plot_both.py]: the combined gene-track / chromatin-accessibility
      figure (display range, axis ticks, exon track, strand arrow, peaks,
      legend), and
    - [corr/plot_corr.py]: the 2x3 grid of ATAC-vs-RNA scatter plots with
      one Pearson correlation per timepoint,

    and proves the properties the specification states about them.

    Conventions.
    - Python [int] is [Z]; [//] on ints is [Z.div] (both floor).
    - A finite float is a rational, so data vectors are [list Q].  The
      comparisons the source performs on data ([==], [>], [np.max]) are
      exact on floats and are modelled exactly.  The arithmetic inside
      [scipy.stats.pearsonr] is modelled in exact real arithmetic
      (rounding, infinities and NaN inputs are outside the model).
    - A Python [dict] is an insertion-ordered association list with
      unique keys ([Py.dict]).
    - A raised exception is the [Raise] branch of [Py.result]; the
      figure under construction is threaded explicitly.
    - Purely cosmetic plot attributes (line widths, font sizes, margins,
      marker sizes) are not represented. *)

From Stdlib Require Import ZArith List String Ascii Bool Lia.
From Stdlib Require Import QArith Qreals Reals Lra Psatz.
From Stdlib Require Import DecimalString Sorted.
Import ListNotations.


(* ================================================================== *)
(** * Python runtime fragments used by both programs *)
(* ================================================================== *)

Module Py.

(** The exception classes the two programs can raise. *)
Inductive exn : Type :=
| TypeError
| IndexError
| KeyError
| ValueError.

Inductive result (A : Type) : Type :=
| Ok (a : A)
| Raise (e : exn).

Arguments Ok {A} a.
Arguments Raise {A} e.

Definition bind {A B : Type} (m : result A) (k : A -> result B) : result B :=
  match m with
  | Ok a => k a
  | Raise e => Raise e
  end.

Definition is_ok {A : Type} (m : result A) : bool :=
  match m with Ok _ => true | Raise _ => false end.

(** [for x in xs: st = body(st, x)] with exceptions propagating. *)
Fixpoint for_each {S X : Type} (body : S -> X -> result S)
         (xs : list X) (st : S) : result S :=
  match xs with
  | [] => Ok st
  | x :: rest => bind (body st x) (for_each body rest)
  end.

(** [enumerate(xs)] *)
Definition enumerate {X : Type} (xs : list X) : list (nat * X) :=
  combine (seq 0 (List.length xs)) xs.

(** [str(i)] / [f"{i}"] for an int. *)
Definition str (i : Z) : string := NilZero.string_of_int (Z.to_int i).

(** [len(range(lo, hi, step))] for [step > 0], as CPython computes it. *)
Definition range_length (lo hi step : Z) : Z :=
  if (lo <? hi)%Z then ((hi - lo - 1) / step + 1)%Z else 0%Z.

(** [list(range(lo, hi, step))] for [step > 0]. *)
Definition range (lo hi step : Z) : list Z :=
  map (fun k => (lo + step * Z.of_nat k)%Z)
      (seq 0 (Z.to_nat (range_length lo hi step))).

(** The builtins [min(a, b)] and [max(a, b)] on values that are either
    an int or [None]: ordering an int against [None] (or [None]
    against [None]) raises [TypeError].  [min] keeps [a] unless
    [b < a]; [max] keeps [a] unless [b > a]. *)
Definition min2 (a b : option Z) : result Z :=
  match a, b with
  | Some x, Some y => Ok (if (y <? x)%Z then y else x)
  | _, _ => Raise TypeError
  end.

Definition max2 (a b : option Z) : result Z :=
  match a, b with
  | Some x, Some y => Ok (if (y >? x)%Z then y else x)
  | _, _ => Raise TypeError
  end.

(** ** Dictionaries *)

Definition dict (V : Type) : Type := list (string * V).

(** [d[k]] *)
Fixpoint getitem {V : Type} (d : dict V) (k : string) : result V :=
  match d with
  | [] => Raise KeyError
  | (k', v) :: rest => if String.eqb k' k then Ok v else getitem rest k
  end.

(** [d[k] = v]: overwrite in place when the key exists, else append. *)
Fixpoint setitem {V : Type} (d : dict V) (k : string) (v : V) : dict V :=
  match d with
  | [] => [(k, v)]
  | (k', v') :: rest =>
      if String.eqb k' k then (k', v) :: rest
      else (k', v') :: setitem rest k v
  end.

Definition keys {V : Type} (d : dict V) : list string := map fst d.
Definition values {V : Type} (d : dict V) : list V := map snd d.
Definition items {V : Type} (d : dict V) : list (string * V) := d.

(** The well-formedness of a dict value: no key occurs twice. *)
Definition wf_dict {V : Type} (d : dict V) : Prop := NoDup (keys d).

(** ** Sequences *)

(** [xs[0]] on a list, array or column. *)
Definition first {X : Type} (xs : list X) : result X :=
  match xs with
  | [] => Raise IndexError
  | x :: _ => Ok x
  end.

(** [[f(x) for x in xs]] where [f] may raise. *)
Fixpoint comprehension {X Y : Type} (f : X -> result Y) (xs : list X)
  : result (list Y) :=
  match xs with
  | [] => Ok []
  | x :: rest =>
      bind (f x) (fun y =>
      bind (comprehension f rest) (fun ys => Ok (y :: ys)))
  end.

End Py.

Import Py.

Declare Scope py_scope.
Delimit Scope py_scope with py.
Notation "x <- m ;; k" := (Py.bind m (fun x => k))
  (at level 61, m at next level, right associativity) : py_scope.
Notation "m ;;; k" := (Py.bind m (fun _ => k))
  (at level 61, right associativity) : py_scope.
Open Scope py_scope.
Open Scope string_scope.

(* ================================================================== *)
(** * [ccan/plot_both.py] *)
(* ================================================================== *)

Module PlotBoth.

(** ** Tables *)

(** A row of [GRCz11.csv]: one exon. *)
Record GeneRow : Type := mkGeneRow {
  g_gene_name : string;
  g_start : Z;
  g_end : Z;
  g_strand : string
}.

(** A row of [access.csv]: one accessibility peak; the source reads the
    columns positionally as [row[1]], [row[2]], [row[3]]. *)
Record AtacRow : Type := mkAtacRow {
  a_gene_name : string;
  a_sample : string;
  a_start : Z;
  a_end : Z
}.

(** [Series.min()] / [Series.max()] of an integer column: [None] on an
    empty column. *)
Definition col_min (col : list Z) : option Z :=
  match col with
  | [] => None
  | x :: rest => Some (fold_left Z.min rest x)
  end.

Definition col_max (col : list Z) : option Z :=
  match col with
  | [] => None
  | x :: rest => Some (fold_left Z.max rest x)
  end.

(** [get_data]: the two tables are read from disk; the filter by gene
    name is the part embedded here. *)
Definition get_data (genes : list GeneRow) (access : list AtacRow)
           (option : string) : list GeneRow * list AtacRow :=
  (filter (fun r => String.eqb (g_gene_name r) option) genes,
   filter (fun r => String.eqb (a_gene_name r) option) access).

(** ** The figure *)

Record Scatter : Type := mkScatter {
  sc_x : list (option Z);
  sc_y : list (option Q);
  sc_mode : string;
  sc_hoverinfo : option string;
  sc_text : option string;
  sc_color : option string;
  sc_fill : bool;
  sc_showlegend : bool;
  sc_name : option string
}.

Record Rect : Type := mkRect {
  r_x0 : Z; r_y0 : Q; r_x1 : Z; r_y1 : Q; r_color : string
}.

(** An arrow annotation: the head is at [(an_x, an_y)], the tail at
    [(an_ax, an_ay)] (both in data coordinates, [axref='x']). *)
Record Annotation : Type := mkAnnotation {
  an_x : option Z; an_y : Q;
  an_ax : option Z; an_ay : Q;
  an_arrowcolor : string
}.

Record XAxis : Type := mkXAxis {
  xa_range : Z * Z;
  xa_title : string;
  xa_tickvals : list Z;
  xa_ticktext : list string;
  xa_autorange : bool
}.

Record YAxis : Type := mkYAxis {
  ya_range : option (Z * Z);
  ya_visible : bool;
  ya_autorange : bool
}.

Record Figure : Type := mkFigure {
  traces : list Scatter;
  shapes : list Rect;
  annotations : list Annotation;
  xaxis : option XAxis;
  yaxis : YAxis
}.

Definition empty_figure : Figure :=
  mkFigure [] [] [] None (mkYAxis None true false).

Definition add_trace (fig : Figure) (t : Scatter) : Figure :=
  mkFigure (traces fig ++ [t]) (shapes fig) (annotations fig)
           (xaxis fig) (yaxis fig).

Definition add_shape (fig : Figure) (r : Rect) : Figure :=
  mkFigure (traces fig) (shapes fig ++ [r]) (annotations fig)
           (xaxis fig) (yaxis fig).

Definition add_annotation (fig : Figure) (a : Annotation) : Figure :=
  mkFigure (traces fig) (shapes fig) (annotations fig ++ [a])
           (xaxis fig) (yaxis fig).

Definition set_xaxis (fig : Figure) (x : XAxis) : Figure :=
  mkFigure (traces fig) (shapes fig) (annotations fig) (Some x) (yaxis fig).

Definition set_yaxis (fig : Figure) (y : YAxis) : Figure :=
  mkFigure (traces fig) (shapes fig) (annotations fig) (xaxis fig) y.

(** ** [plot_genomic_region] *)

Definition tick_length : Q := 15 # 1000.
Definition tick_stride : Z := 5000.

(** [list(range(start, end + 1, 5000))] *)
Definition chromosome_ticks (start end_ : Z) : list Z :=
  Py.range start (end_ + 1) tick_stride.

(** [f"{tick // 1000}"] *)
Definition tick_label (tick : Z) : string := Py.str (tick / 1000).

(** [f"{tick // 1000} kbp"] *)
Definition tick_hover (tick : Z) : string := Py.str (tick / 1000) ++ " kbp".

Definition tick_trace (tick : Z) : Scatter :=
  mkScatter [Some tick; Some tick]
            [Some (- tick_length / 2)%Q; Some (tick_length / 2)%Q]
            "lines" (Some "text") (Some (tick_hover tick))
            (Some "black") false false None.

Definition plot_genomic_region (start end_ : Z) : Figure :=
  let fig := empty_figure in
  let fig := add_trace fig
               (mkScatter [Some start; Some end_] [Some 0%Q; Some 0%Q]
                          "lines" (Some "none") None (Some "black")
                          false false None) in
  let ticks := chromosome_ticks start end_ in
  let fig := fold_left (fun f tick => add_trace f (tick_trace tick))
                       ticks fig in
  set_xaxis fig
    (mkXAxis (start - 1, end_ + 1)%Z "Genomic Coordinate (kbp)"
             ticks (map tick_label ticks) false).

(** ** [plot_gene] *)

Definition exon_text (exon_start exon_end : Z) : string :=
  "<b>Start:</b> " ++ Py.str exon_start ++ "<br><b>End:</b> "
    ++ Py.str exon_end.

Definition draw_exon (fig : Figure) (exon : Z * Z) : Figure :=
  let '(exon_start, exon_end) := exon in
  let fig := add_shape fig
               (mkRect exon_start (11 # 100) exon_end (9 # 100)
                       "dodgerblue") in
  add_trace fig
    (mkScatter
       [Some exon_start; Some exon_end; Some exon_end; Some exon_start;
        Some exon_start]
       [Some (11 # 100); Some (11 # 100); Some (9 # 100); Some (9 # 100);
        Some (11 # 100)]
       "lines" (Some "text") (Some (exon_text exon_start exon_end))
       None true false None).

(** The [start] and [end] parameters are accepted and never read, as
    in the source. *)
Definition plot_gene (fig : Figure) (gene_data : list GeneRow)
           (start end_ : Z) : result Figure :=
  let exon_positions := map (fun r => (g_start r, g_end r)) gene_data in
  let genomic_start := col_min (map g_start gene_data) in
  let genomic_end := col_max (map g_end gene_data) in
  let fig := add_trace fig
               (mkScatter [genomic_start; genomic_end]
                          [Some (1 # 10); Some (1 # 10)]
                          "lines" (Some "none") None (Some "gray")
                          false false None) in
  let fig := fold_left draw_exon exon_positions fig in
  strand <- Py.first (map g_strand gene_data) ;;
  let '(arrow, ax) :=
    if String.eqb strand "+" then (genomic_end, genomic_start)
    else (genomic_start, genomic_end) in
  Ok (add_annotation fig
        (mkAnnotation arrow (7 # 100) ax (7 # 100) "lightgray")).

(** ** [plot_atac] *)

Definition heights : Py.dict Q :=
  [("TDR126", 20 # 100); ("TDR127", 225 # 1000); ("TDR128", 25 # 100);
   ("TDR118", 275 # 1000); ("TDR125", 30 # 100); ("TDR124", 325 # 1000)].

Definition timepoints : Py.dict string :=
  [("TDR126", "10 hours post fertilization");
   ("TDR127", "12 hours post fertilization");
   ("TDR128", "14 hours post fertilization");
   ("TDR118", "16 hours post fertilization");
   ("TDR125", "19 hours post fertilization");
   ("TDR124", "24 hours post fertilization")].

Definition colors : Py.dict string :=
  [("TDR126", "#440154"); ("TDR127", "#414487"); ("TDR128", "#2A788E");
   ("TDR118", "#22A884"); ("TDR125", "#7AD151"); ("TDR124", "#FDE725")].

Definition peak_text (label : string) (atac_start atac_end : Z) : string :=
  "<b>Sample:</b> " ++ label ++ "<br>"
    ++ "<b>Start:</b> " ++ Py.str atac_start ++ "<br>"
    ++ "<b>End:</b> " ++ Py.str atac_end ++ "<br>".

Definition draw_peak (fig : Figure) (row : AtacRow) : result Figure :=
  let atac_start := a_start row in
  let atac_end := a_end row in
  height <- Py.getitem heights (a_sample row) ;;
  color <- Py.getitem colors (a_sample row) ;;
  let fig := add_shape fig
               (mkRect atac_start (height - (1 # 100)) atac_end
                       (height + (1 # 100)) color) in
  label <- Py.getitem timepoints (a_sample row) ;;
  Ok (add_trace fig
        (mkScatter
           [Some atac_start; Some atac_end; Some atac_end; Some atac_start;
            Some atac_start]
           [Some (height + (1 # 100))%Q; Some (height + (1 # 100))%Q;
            Some (height - (1 # 100))%Q; Some (height - (1 # 100))%Q;
            Some (height + (1 # 100))%Q]
           "lines" (Some "text")
           (Some (peak_text label atac_start atac_end))
           None true false None)).

Definition plot_atac (fig : Figure) (atac_data : list AtacRow)
  : result Figure :=
  Py.for_each draw_peak atac_data fig.

(** ** [plot_legend] *)

Definition legend_peak (fig : Figure) (entry : string * string)
  : result Figure :=
  let '(key, color) := entry in
  label <- Py.getitem timepoints key ;;
  Ok (add_trace fig
        (mkScatter [None] [Some (15 # 100); Some (15 # 100)]
                   "markers" None None (Some color) false true
                   (Some ("ATAC peak - " ++ label)))).

Definition plot_legend (fig : Figure) : result Figure :=
  let fig := add_trace fig
               (mkScatter [None] [None] "lines+markers" None None
                          (Some "lightgray") false true
                          (Some "Transcription direction")) in
  let fig := add_trace fig
               (mkScatter [None] [None] "markers" None None
                          (Some "dodgerblue") false true (Some "Exon")) in
  Py.for_each legend_peak (Py.items colors) fig.

(** ** [combined_plot] *)

(** Lines 266-267: the display range over both tables. *)
Definition display_range (gene_data : list GeneRow)
           (atac_data : list AtacRow) : result (Z * Z) :=
  start <- Py.min2 (col_min (map g_start gene_data))
                   (col_min (map a_start atac_data)) ;;
  end_ <- Py.max2 (col_max (map g_end gene_data))
                  (col_max (map a_end atac_data)) ;;
  Ok (start, end_).

(** The body of [combined_plot] after [get_data] has returned. *)
Definition combined_plot_on (gene_data : list GeneRow)
           (atac_data : list AtacRow) : result Figure :=
  range <- display_range gene_data atac_data ;;
  let '(start, end_) := range in
  let fig := plot_genomic_region start end_ in
  fig <- plot_gene fig gene_data start end_ ;;
  fig <- plot_atac fig atac_data ;;
  fig <- plot_legend fig ;;
  let fig := set_yaxis fig (mkYAxis None (ya_visible (yaxis fig)) true) in
  let fig := match xaxis fig with
             | Some x => set_xaxis fig
                           (mkXAxis (xa_range x) (xa_title x)
                                    (xa_tickvals x) (xa_ticktext x) true)
             | None => fig
             end in
  Ok (set_yaxis fig (mkYAxis (Some (-1, 1)%Z) false (ya_autorange (yaxis fig)))).

Definition combined_plot (genes : list GeneRow) (access : list AtacRow)
           (option : string) : result Figure :=
  let '(gene_data, atac_data) := get_data genes access option in
  combined_plot_on gene_data atac_data.

End PlotBoth.

(* ================================================================== *)
(** * [corr/plot_corr.py] *)
(* ================================================================== *)

Module PlotCorr.

(** A correlation value: [np.nan] or a number. *)
Inductive score : Type :=
| NaN
| Num (r : R).

(** ** numpy fragments *)

(** [a > b] on floats. *)
Definition gt (a b : Q) : bool :=
  match (a ?= b)%Q with Gt => true | _ => false end.

(** [np.all(v == v[0])]: indexing an empty array raises. *)
Definition all_equal_first (v : list Q) : result bool :=
  v0 <- Py.first v ;;
  Ok (forallb (fun x => Qeq_bool x v0) v).

(** [np.max(v)]: a largest element; raises on an empty array. *)
Definition np_max (v : list Q) : result Q :=
  match v with
  | [] => Raise ValueError
  | x :: rest => Ok (fold_left (fun m y => if gt y m then y else m) rest x)
  end.

(** ** [scipy.stats.pearsonr], in exact arithmetic *)

Definition Rsum (l : list R) : R := fold_right Rplus 0%R l.

Definition mean (l : list R) : R := (Rsum l / INR (List.length l))%R.

Definition centered (l : list R) : list R :=
  map (fun v => (v - mean l)%R) l.

Definition dot (a b : list R) : R :=
  Rsum (map (fun p => (fst p * snd p)%R) (combine a b)).

Definition norm (a : list R) : R := sqrt (dot a a).

(** [max(min(r, 1.0), -1.0)] *)
Definition clip (r : R) : R := Rmax (Rmin r 1) (-1).

(** The library routine as documented: it rejects inputs of different
    length or of fewer than two observations, answers [nan] on a
    constant input, and otherwise returns
    [dot(xm / norm(xm), ym / norm(ym))] clipped to [[-1, 1]], where
    [xm] and [ym] are the mean-centred inputs. *)
Definition pearsonr (x y : list Q) : result score :=
  let n := List.length x in
  if negb (n =? List.length y)%nat then Raise ValueError
  else if (n <? 2)%nat then Raise ValueError
  else
    cx <- all_equal_first x ;;
    cy <- all_equal_first y ;;
    if cx || cy then Ok NaN
    else
      let xm := centered (map Q2R x) in
      let ym := centered (map Q2R y) in
      let normxm := norm xm in
      let normym := norm ym in
      let r := dot (map (fun v => (v / normxm)%R) xm)
                   (map (fun v => (v / normym)%R) ym) in
      Ok (Num (clip r)).

(** ** Formatting: [f"{c:.2f}"] *)

(** Nearest integer, ties to even. *)
Definition round_half_even (r : R) : Z :=
  let f := Int_part r in
  let d := (r - IZR f)%R in
  if Rlt_dec d (1 / 2) then f
  else if Rlt_dec (1 / 2) d then (f + 1)%Z
  else if Z.even f then f else (f + 1)%Z.

Definition two_digits (m : Z) : string :=
  if (m <? 10)%Z then "0" ++ Py.str m else Py.str m.

Definition format_2f (c : score) : string :=
  match c with
  | NaN => "nan"
  | Num r =>
      let cents := Z.abs (round_half_even (100 * r)) in
      (if Rlt_dec r 0 then "-" else EmptyString)
        ++ Py.str (cents / 100) ++ "." ++ two_digits (cents mod 100)
  end.

(** ** The figure *)

Record Scatter : Type := mkScatter {
  sc_x : list Q;
  sc_y : list Q;
  sc_marker_color : list string;
  sc_text : list string
}.

Record Axis : Type := mkAxis {
  ax_title : string;
  ax_range : Q * Q
}.

Record Figure : Type := mkFigure {
  fig_rows : nat;
  fig_cols : nat;
  traces : list (nat * nat * Scatter);
  annotations : list string;
  xaxes : list (nat * nat * Axis);
  yaxes : list (nat * nat * Axis)
}.

(** [make_subplots(rows, cols, subplot_titles)]: one title annotation
    per subplot. *)
Definition make_subplots (rows cols : nat) (subplot_titles : list string)
  : Figure :=
  mkFigure rows cols [] subplot_titles [] [].

Definition in_grid (fig : Figure) (row col : nat) : bool :=
  ((1 <=? row) && (row <=? fig_rows fig)
   && (1 <=? col) && (col <=? fig_cols fig))%nat.

(** [fig.add_trace(t, row, col)]: a cell outside the grid is refused. *)
Definition add_trace (fig : Figure) (t : Scatter) (row col : nat)
  : result Figure :=
  if in_grid fig row col then
    Ok (mkFigure (fig_rows fig) (fig_cols fig)
                 (traces fig ++ [(row, col, t)])
                 (annotations fig) (xaxes fig) (yaxes fig))
  else Raise ValueError.

Definition cell_eqb (a b : nat * nat) : bool :=
  ((fst a =? fst b) && (snd a =? snd b))%nat.

Fixpoint set_axis (axes : list (nat * nat * Axis)) (cell : nat * nat)
         (a : Axis) : list (nat * nat * Axis) :=
  match axes with
  | [] => [(cell, a)]
  | (c, a') :: rest =>
      if cell_eqb c cell then (c, a) :: rest
      else (c, a') :: set_axis rest cell a
  end.

Fixpoint get_axis (axes : list (nat * nat * Axis)) (cell : nat * nat)
  : option Axis :=
  match axes with
  | [] => None
  | (c, a) :: rest => if cell_eqb c cell then Some a else get_axis rest cell
  end.

(** [fig.update_xaxes(title=..., row=..., col=..., range=...)] *)
Definition update_xaxes (fig : Figure) (row col : nat) (a : Axis)
  : result Figure :=
  if in_grid fig row col then
    Ok (mkFigure (fig_rows fig) (fig_cols fig) (traces fig)
                 (annotations fig) (set_axis (xaxes fig) (row, col) a)
                 (yaxes fig))
  else Raise ValueError.

Definition update_yaxes (fig : Figure) (row col : nat) (a : Axis)
  : result Figure :=
  if in_grid fig row col then
    Ok (mkFigure (fig_rows fig) (fig_cols fig) (traces fig)
                 (annotations fig) (xaxes fig)
                 (set_axis (yaxes fig) (row, col) a))
  else Raise ValueError.

Definition set_annotations (fig : Figure) (texts : list string) : Figure :=
  mkFigure (fig_rows fig) (fig_cols fig) (traces fig) texts
           (xaxes fig) (yaxes fig).

(** ** [plot_genes] *)

Definition timepoints : Py.dict string :=
  [("TDR126", "10 hours post fertilization");
   ("TDR127", "12 hours post fertilization");
   ("TDR128", "14 hours post fertilization");
   ("TDR118", "16 hours post fertilization");
   ("TDR125", "19 hours post fertilization");
   ("TDR124", "24 hours post fertilization")].

(** The entry of the pickled dictionary for one gene and one sample:
    expression values, accessibility values, one colour per unit. *)
Definition PerSample : Type := (list Q * list Q * list string)%type.

Definition GeneDict : Type := Py.dict (Py.dict PerSample).

(** Lines 124-129, with the correlation routine that the [else]
    branch calls as a parameter; [or] evaluates its right operand only
    when the left one is false. *)
Definition corr_score_with
           (correlate : list Q -> list Q -> result score)
           (expr_rna expr_atac : list Q) : result score :=
  const_rna <- all_equal_first expr_rna ;;
  if const_rna then Ok NaN
  else
    const_atac <- all_equal_first expr_atac ;;
    if const_atac then Ok NaN
    else correlate expr_rna expr_atac.

Definition corr_score : list Q -> list Q -> result score :=
  corr_score_with pearsonr.

(** One step of the comprehension below: [inv[v] = k]. *)
Definition invert_step (inv : Py.dict string) (kv : string * string)
  : Py.dict string :=
  Py.setitem inv (snd kv) (fst kv).

(** [{v: k for k, v in color_dict.items()}] *)
Definition invert (color_dict : Py.dict string) : Py.dict string :=
  fold_left invert_step (Py.items color_dict) [].

Record LoopState : Type := mkLoopState {
  st_fig : Figure;
  st_corr_scores : list score;
  st_rna_max : Q;
  st_atac_max : Q
}.

(** Lines 112-116: the empty grid, no scores, both maxima at [0]. *)
Definition initial_state : LoopState :=
  mkLoopState (make_subplots 2 3 (Py.values timepoints)) [] 0 0.

Section WithPalette.

(** Modelled from the spec: [define_color_dict] lives in
    [preprocess.py], a module that is not embedded here; its
    result, the static cell-type-to-colour palette, is a parameter. *)
Variable color_dict : Py.dict string.

Variable gene : string.
Variable gene_dict : GeneDict.

(** One iteration of the loop over the timepoints (lines 117-153). *)
Definition loop_body (st : LoopState) (item : nat * string)
  : result LoopState :=
  let '(index, sample_id) := item in
  by_sample <- Py.getitem gene_dict gene ;;
  data <- Py.getitem by_sample sample_id ;;
  let '(expr_rna, expr_atac, colors) := data in
  corr <- corr_score expr_rna expr_atac ;;
  let corr_scores := (st_corr_scores st ++ [corr])%list in
  let inv_color_dict := invert color_dict in
  type_colors <- Py.comprehension (Py.getitem inv_color_dict) colors ;;
  let scatter := mkScatter expr_atac expr_rna colors type_colors in
  m_rna <- np_max expr_rna ;;
  let rna_max := if gt m_rna (st_rna_max st) then m_rna
                 else st_rna_max st in
  m_atac <- np_max expr_atac ;;
  let atac_max := if gt m_atac (st_atac_max st) then m_atac
                  else st_atac_max st in
  fig <- add_trace (st_fig st) scatter
                   (index / 3 + 1)%nat (index mod 3 + 1)%nat ;;
  Ok (mkLoopState fig corr_scores rna_max atac_max).

(** [f"{label}<br>Correlation: {corr:.2f}"] for annotation [i]. *)
Definition title_text (corr_scores : list score) (i : nat)
  : result string :=
  match nth_error (Py.values timepoints) i, nth_error corr_scores i with
  | Some label, Some c =>
      Ok (label ++ "<br>Correlation: " ++ format_2f c)
  | _, _ => Raise IndexError
  end.

(** One iteration of the axis loop (lines 168-170). *)
Definition axes_body (rna_max atac_max : Q) (fig : Figure) (i : nat)
  : result Figure :=
  fig <- update_xaxes fig (i / 3 + 1)%nat (i mod 3 + 1)%nat
                      (mkAxis "ATAC" (0, atac_max)) ;;
  update_yaxes fig (i / 3 + 1)%nat (i mod 3 + 1)%nat
               (mkAxis "RNA" (0, rna_max)).

Definition plot_genes : result Figure :=
  st <- Py.for_each loop_body (Py.enumerate (Py.keys timepoints))
                    initial_state ;;
  let fig := st_fig st in
  texts <- Py.comprehension (title_text (st_corr_scores st))
                            (seq 0 (List.length (annotations fig))) ;;
  let fig := set_annotations fig texts in
  Py.for_each (axes_body (st_rna_max st) (st_atac_max st))
              (seq 0 (List.length (st_corr_scores st))) fig.

End WithPalette.

End PlotCorr.

(* ================================================================== *)
(** * Vocabulary of the specification *)
(* ================================================================== *)

Module Spec.

(** [m] is the minimum (maximum) of the column [col]. *)
Definition is_min_of (col : list Z) (m : Z) : Prop :=
  In m col /\ forall x, In x col -> (m <= x)%Z.

Definition is_max_of (col : list Z) (m : Z) : Prop :=
  In m col /\ forall x, In x col -> (x <= m)%Z.

(** A tick of the range [[start, end]] at the given stride. *)
Definition on_stride (start end_ stride t : Z) : Prop :=
  (start <= t <= end_)%Z /\ ((t - start) mod stride = 0)%Z.

(** The transcription arrow drawn from [tail] to [head]. *)
Definition arrow (head tail : Z) : PlotBoth.Annotation :=
  PlotBoth.mkAnnotation (Some head) (7 # 100) (Some tail) (7 # 100)
                        "lightgray".

(** The coordinates of a table, strands left out. *)
Definition coordinates (gene_data : list PlotBoth.GeneRow)
  : list (Z * Z) :=
  map (fun r => (PlotBoth.g_start r, PlotBoth.g_end r)) gene_data.

(** Every value of the vector is identical. *)
Definition constant (v : list Q) : Prop :=
  forall a b, In a v -> In b v -> (a == b)%Q.

(** [m] is the largest value of [vs]. *)
Definition is_Qmax_of (vs : list Q) (m : Q) : Prop :=
  In m vs /\ forall v, In v vs -> (v <= m)%Q.

(** [m] is the largest value among the starting value [m0] and [vs]. *)
Definition running_max (m0 : Q) (vs : list Q) (m : Q) : Prop :=
  (m = m0 \/ In m vs) /\ (m0 <= m)%Q /\ forall v, In v vs -> (v <= m)%Q.

(** [m] is the largest value among [0] and [vs]. *)
Definition is_Qmax_with_zero (vs : list Q) (m : Q) : Prop :=
  running_max 0 vs m.

(** The Pearson product-moment correlation coefficient of two
    real vectors: covariance over the product of the standard
    deviations (the common factor [1/n] cancels). *)
Definition pearson_coefficient (x y : list R) : R :=
  let mx := PlotCorr.mean x in
  let my := PlotCorr.mean y in
  let sxy := PlotCorr.Rsum
               (map (fun p => ((fst p - mx) * (snd p - my))%R)
                    (combine x y)) in
  let sxx := PlotCorr.Rsum (map (fun a => ((a - mx) * (a - mx))%R) x) in
  let syy := PlotCorr.Rsum (map (fun b => ((b - my) * (b - my))%R) y) in
  (sxy / (sqrt sxx * sqrt syy))%R.

(** A palette maps distinct cell types to distinct colours. *)
Definition injective (d : Py.dict string) : Prop :=
  forall k1 k2 c,
    Py.getitem d k1 = Ok c -> Py.getitem d k2 = Ok c -> k1 = k2.

(** The entry of the pickled dictionary for a gene and a sample. *)
Definition sample_data (gene : string) (gene_dict : PlotCorr.GeneDict)
           (sample_id : string) : result PlotCorr.PerSample :=
  by_sample <- Py.getitem gene_dict gene ;;
  Py.getitem by_sample sample_id.

Definition expression (d : PlotCorr.PerSample) : list Q := fst (fst d).
Definition accessibility (d : PlotCorr.PerSample) : list Q := snd (fst d).

Definition vector_of (sel : PlotCorr.PerSample -> list Q) (gene : string)
           (gene_dict : PlotCorr.GeneDict) (sample_id : string) : list Q :=
  match sample_data gene gene_dict sample_id with
  | Ok d => sel d
  | Raise _ => []
  end.

(** All values of one kind over the six timepoints of a gene. *)
Definition gene_values (sel : PlotCorr.PerSample -> list Q)
           (gene : string) (gene_dict : PlotCorr.GeneDict) : list Q :=
  flat_map (vector_of sel gene gene_dict) (Py.keys PlotCorr.timepoints).

(** The data contract of the correlation grid: every timepoint of the
    gene has non-empty, aligned vectors and only colours of the
    palette. *)
Definition valid_input (color_dict : Py.dict string) (gene : string)
           (gene_dict : PlotCorr.GeneDict) : Prop :=
  forall sample_id,
    In sample_id (Py.keys PlotCorr.timepoints) ->
    exists expr_rna expr_atac colors,
      sample_data gene gene_dict sample_id
      = Ok (expr_rna, expr_atac, colors)
      /\ expr_rna <> []
      /\ List.length expr_rna = List.length expr_atac
      /\ (forall c, In c colors -> In c (Py.values color_dict)).

(** The scatter trace of one timepoint, placed in the grid by its
    list index. *)
Definition placed_trace (gene : string) (gene_dict : PlotCorr.GeneDict)
           (item : nat * string)
           (t : nat * nat * PlotCorr.Scatter) : Prop :=
  exists expr_rna expr_atac colors names,
    sample_data gene gene_dict (snd item) = Ok (expr_rna, expr_atac, colors)
    /\ t = ((fst item / 3 + 1)%nat, (fst item mod 3 + 1)%nat,
            PlotCorr.mkScatter expr_atac expr_rna colors names).


(** A cell of the 2x3 grid. *)
Definition grid_cell (row col : nat) : Prop :=
  (1 <= row <= 2 /\ 1 <= col <= 3)%nat.

Definition grid_cells : list (nat * nat) :=
  [(1, 1); (1, 2); (1, 3); (2, 1); (2, 2); (2, 3)]%nat.

(** One axis setting, the same in every cell of the grid. *)
Definition shared_axes (title : string) (upper : Q)
  : list (nat * nat * PlotCorr.Axis) :=
  map (fun cell => (cell, PlotCorr.mkAxis title (0, upper))) grid_cells.

(** The shared-axis property as the specification words it: the upper
    bounds are the global maxima themselves. *)
Definition shared_axis_claim : Prop :=
  forall color_dict gene gene_dict fig m_atac m_rna,
    PlotCorr.plot_genes color_dict gene gene_dict = Ok fig ->
    is_Qmax_of (gene_values accessibility gene gene_dict) m_atac ->
    is_Qmax_of (gene_values expression gene gene_dict) m_rna ->
    forall row col,
      grid_cell row col ->
      exists ax ay,
        PlotCorr.get_axis (PlotCorr.xaxes fig) (row, col) = Some ax
        /\ PlotCorr.get_axis (PlotCorr.yaxes fig) (row, col) = Some ay
        /\ (fst (PlotCorr.ax_range ax) == 0 /\
            snd (PlotCorr.ax_range ax) == m_atac)%Q
        /\ (fst (PlotCorr.ax_range ay) == 0 /\
            snd (PlotCorr.ax_range ay) == m_rna)%Q.

End Spec.

(* ================================================================== *)
(** * Concrete inputs *)
(* ================================================================== *)

Module Samples.

Import PlotBoth.

(** The end-to-end scenario of the specification: gene [slc4a1a] with
    two exons on the forward strand and one peak of sample [TDR126]. *)
Definition slc4a1a_exons : list GeneRow :=
  [mkGeneRow "slc4a1a" 100 200 "+"; mkGeneRow "slc4a1a" 300 400 "+"].

Definition slc4a1a_peaks : list AtacRow :=
  [mkAtacRow "slc4a1a" "TDR126" 150 350].

(** The same coordinates on the reverse strand. *)
Definition reverse_exons : list GeneRow :=
  [mkGeneRow "slc4a1a" 100 200 "-"; mkGeneRow "slc4a1a" 300 400 "-"].


(** Tables holding rows of another gene only. *)
Definition other_genes : list GeneRow :=
  [mkGeneRow "myod1" 10 20 "+"].

Definition other_access : list AtacRow :=
  [mkAtacRow "myod1" "TDR126" 5 25].

(** An illustrative palette of three cell types with distinct
    colours; the palette of the application itself is configuration
    held in [preprocess.py]. *)
Definition sample_palette : Py.dict string :=
  [("NMPs", "#8dd3c7"); ("PSM", "#008080"); ("Somites", "#1f78b4")].

(** A gene whose expression is flat within every timepoint while its
    accessibility varies; the largest accessibility value, [9], sits in
    the third timepoint and the largest expression value, [6], in the
    last. *)
Definition flat_expression : PlotCorr.GeneDict :=
  [("slc4a1a",
    [("TDR126", ([1; 1]%Q, [1; 2]%Q, ["#8dd3c7"; "#008080"]));
     ("TDR127", ([2; 2]%Q, [3; 1]%Q, ["#008080"; "#008080"]));
     ("TDR128", ([3; 3]%Q, [9; 4]%Q, ["#1f78b4"; "#8dd3c7"]));
     ("TDR118", ([4; 4]%Q, [2; 2]%Q, ["#8dd3c7"; "#8dd3c7"]));
     ("TDR125", ([5; 5]%Q, [7; 8]%Q, ["#008080"; "#1f78b4"]));
     ("TDR124", ([6; 6]%Q, [5; 6]%Q, ["#1f78b4"; "#1f78b4"]))])].

(** A gene all of whose values are negative (the accessibility
    being [-1] or [-3], the expression [-2] throughout). *)
Definition negative_values : PlotCorr.GeneDict :=
  [("slc4a1a",
    [("TDR126", ([-2; -2]%Q, [-1; -3]%Q, ["#8dd3c7"; "#008080"]));
     ("TDR127", ([-2; -2]%Q, [-1; -3]%Q, ["#8dd3c7"; "#008080"]));
     ("TDR128", ([-2; -2]%Q, [-1; -3]%Q, ["#8dd3c7"; "#008080"]));
     ("TDR118", ([-2; -2]%Q, [-1; -3]%Q, ["#8dd3c7"; "#008080"]));
     ("TDR125", ([-2; -2]%Q, [-1; -3]%Q, ["#8dd3c7"; "#008080"]));
     ("TDR124", ([-2; -2]%Q, [-1; -3]%Q, ["#8dd3c7"; "#008080"]))])].

End Samples.

(* ================================================================== *)
(** * Further Python fragments: strings and [list.index] *)
(* ================================================================== *)

Module PyStr.

(** [s.split(sep)] for a one-character separator: the pieces between
    the separators, empty pieces included. *)
Fixpoint split (sep : ascii) (s : string) : list string :=
  match s with
  | EmptyString => [EmptyString]
  | String a rest =>
      if Ascii.eqb a sep then EmptyString :: split sep rest
      else match split sep rest with
           | [] => [String a EmptyString]
           | w :: ws => String a w :: ws
           end
  end.

(** [sep.join(pieces)] *)
Fixpoint join (sep : string) (pieces : list string) : string :=
  match pieces with
  | [] => EmptyString
  | w :: rest =>
      match rest with
      | [] => w
      | _ :: _ => w ++ sep ++ join sep rest
      end
  end.

(** [xs.index(x)]: the first position of [x]; [ValueError] when [x]
    does not occur. *)
Fixpoint index (x : string) (xs : list string) : result nat :=
  match xs with
  | [] => Raise ValueError
  | y :: rest =>
      if String.eqb y x then Ok 0%nat
      else n <- index x rest ;; Ok (S n)
  end.

End PyStr.

(* ================================================================== *)
(** * [corr/plot_corr.py]: the session and the entry point *)
(* ================================================================== *)

Module App.

(** The gene every new dropdown starts on. *)
Definition default_gene : string := "slc4a1a".

(** What the two sidebar buttons report in one run of the script. *)
Record Presses : Type := mkPresses {
  add_gene : bool;
  reset : bool
}.

(** Lines 46-57 of [st_setup]: [st.session_state.selectboxes] after
    this run; [None] stands for a session without the key. *)
Definition update_selectboxes (session : option (list nat)) (p : Presses)
  : list nat :=
  let boxes := match session with
               | None => [0%nat]
               | Some boxes => boxes
               end in
  let boxes := if add_gene p then (boxes ++ [List.length boxes])%list
               else boxes in
  if reset p then [0%nat] else boxes.

(** The value of the dropdown with the given key after it has been
    drawn: what the user chose for that key, or else the option at the
    default index. *)
Definition selectbox (gene_names : list string)
           (choice : nat -> option string) (default key : nat) : string :=
  match choice key with
  | Some g => g
  | None => nth default gene_names EmptyString
  end.

(** [st_setup]: the session after the run, and the selected genes or
    the exception that ended the run.  The session is updated before
    the default gene is looked up. *)
Definition st_setup (session : option (list nat)) (p : Presses)
           (choice : nat -> option string) (gene_names : list string)
  : option (list nat) * result (list string) :=
  let boxes := update_selectboxes session p in
  (Some boxes,
   default <- PyStr.index default_gene gene_names ;;
   Ok (map (selectbox gene_names choice default) boxes)).

(** A sequence of runs, each with its button presses. *)
Definition after_runs (runs : list Presses) : option (list nat) :=
  fold_left (fun session p => Some (update_selectboxes session p))
            runs None.

(** The number of runs with [Add Gene] pressed (and [Reset] not) since
    the last run with [Reset] pressed. *)
Fixpoint adds_since_reset (runs : list Presses) (acc : nat) : nat :=
  match runs with
  | [] => acc
  | p :: rest =>
      adds_since_reset rest
        (if reset p then 0 else if add_gene p then S acc else acc)%nat
  end.

(** [main], lines 180-181: the data directory next to the script. *)
Definition data_path (argv0 : string) : string :=
  PyStr.join "/" (removelast (PyStr.split "/"%char argv0)) ++ "/data".

(** [main], lines 184-192: the figures of one run, one per selected
    gene, in order; the dropdowns offer the keys of [gene_dict]. *)
Definition main_figures (color_dict : Py.dict string)
           (gene_dict : PlotCorr.GeneDict) (session : option (list nat))
           (p : Presses) (choice : nat -> option string)
  : option (list nat) * result (list (string * PlotCorr.Figure)) :=
  let gene_names := Py.keys gene_dict in
  let '(session', selected) := st_setup session p choice gene_names in
  (session',
   selected_genes <- selected ;;
   Py.comprehension
     (fun gene =>
        fig <- PlotCorr.plot_genes color_dict gene gene_dict ;;
        Ok (gene, fig))
     selected_genes).

End App.

(* ================================================================== *)
(** * Vocabulary for the layers of the two figures *)
(* ================================================================== *)

Module Layers.

Import PlotBoth.

(** The axis line of [plot_genomic_region]. *)
Definition baseline (start end_ : Z) : Scatter :=
  mkScatter [Some start; Some end_] [Some 0%Q; Some 0%Q]
            "lines" (Some "none") None (Some "black") false false None.

(** The grey line of [plot_gene] along the gene. *)
Definition gene_line (gs ge : option Z) : Scatter :=
  mkScatter [gs; ge] [Some (1 # 10); Some (1 # 10)]
            "lines" (Some "none") None (Some "gray") false false None.

(** The rectangle and the hover outline of one exon. *)
Definition exon_rect (exon : Z * Z) : Rect :=
  mkRect (fst exon) (11 # 100) (snd exon) (9 # 100) "dodgerblue".

Definition exon_trace (exon : Z * Z) : Scatter :=
  mkScatter
    [Some (fst exon); Some (snd exon); Some (snd exon); Some (fst exon);
     Some (fst exon)]
    [Some (11 # 100); Some (11 # 100); Some (9 # 100); Some (9 # 100);
     Some (11 # 100)]
    "lines" (Some "text") (Some (exon_text (fst exon) (snd exon)))
    None true false None.

(** The rectangle and the hover outline of one peak, given the height,
    colour and label of its sample. *)
Definition peak_rect (height : Q) (color : string) (row : AtacRow) : Rect :=
  mkRect (a_start row) (height - (1 # 100)) (a_end row)
         (height + (1 # 100)) color.

Definition peak_trace (height : Q) (label : string) (row : AtacRow)
  : Scatter :=
  mkScatter
    [Some (a_start row); Some (a_end row); Some (a_end row);
     Some (a_start row); Some (a_start row)]
    [Some (height + (1 # 100))%Q; Some (height + (1 # 100))%Q;
     Some (height - (1 # 100))%Q; Some (height - (1 # 100))%Q;
     Some (height + (1 # 100))%Q]
    "lines" (Some "text")
    (Some (peak_text label (a_start row) (a_end row)))
    None true false None.

(** A peak row drawn with the static settings of its sample. *)
Definition drawn_peak (row : AtacRow) (drawn : Rect * Scatter) : Prop :=
  exists height color label,
    Py.getitem heights (a_sample row) = Ok height
    /\ Py.getitem colors (a_sample row) = Ok color
    /\ Py.getitem timepoints (a_sample row) = Ok label
    /\ drawn = (peak_rect height color row, peak_trace height label row).

(** The sample identifier is one of the six timepoints. *)
Definition known_sample (sample_id : string) : Prop :=
  In sample_id (Py.keys timepoints).

Definition legend_entry (mode color name : string) (y : list (option Q))
  : Scatter :=
  mkScatter [None] y mode None None (Some color) false true (Some name).

(** The eight legend entries, in the order [plot_legend] adds them. *)
Definition legend_traces : list Scatter :=
  [legend_entry "lines+markers" "lightgray" "Transcription direction" [None];
   legend_entry "markers" "dodgerblue" "Exon" [None];
   legend_entry "markers" "#440154"
                "ATAC peak - 10 hours post fertilization"
                [Some (15 # 100); Some (15 # 100)];
   legend_entry "markers" "#414487"
                "ATAC peak - 12 hours post fertilization"
                [Some (15 # 100); Some (15 # 100)];
   legend_entry "markers" "#2A788E"
                "ATAC peak - 14 hours post fertilization"
                [Some (15 # 100); Some (15 # 100)];
   legend_entry "markers" "#22A884"
                "ATAC peak - 16 hours post fertilization"
                [Some (15 # 100); Some (15 # 100)];
   legend_entry "markers" "#7AD151"
                "ATAC peak - 19 hours post fertilization"
                [Some (15 # 100); Some (15 # 100)];
   legend_entry "markers" "#FDE725"
                "ATAC peak - 24 hours post fertilization"
                [Some (15 # 100); Some (15 # 100)]].

(** The horizontal extent of a rectangle. *)
Definition span (r : Rect) : Z * Z := (r_x0 r, r_x1 r).

(** The names shown in the legend: the traces with [showlegend]. *)
Definition legend_names (fig : Figure) : list (option string) :=
  map sc_name (filter sc_showlegend (traces fig)).

(** The data under which [plot_genes] draws a gene: every timepoint is
    present with non-empty vectors whose colours are in the palette,
    and the vectors are aligned unless one of them is constant. *)
Definition renderable (color_dict : Py.dict string) (gene : string)
           (gene_dict : PlotCorr.GeneDict) : Prop :=
  forall sample_id,
    In sample_id (Py.keys PlotCorr.timepoints) ->
    exists expr_rna expr_atac colors,
      Spec.sample_data gene gene_dict sample_id
      = Ok (expr_rna, expr_atac, colors)
      /\ expr_rna <> [] /\ expr_atac <> []
      /\ (Spec.constant expr_rna \/ Spec.constant expr_atac
          \/ List.length expr_rna = List.length expr_atac)
      /\ (forall c, In c colors -> In c (Py.values color_dict)).

(** A scatter trace of the grid together with the lookups that
    produced its hover names. *)
Definition rendered_trace (color_dict : Py.dict string) (gene : string)
           (gene_dict : PlotCorr.GeneDict) (item : nat * string)
           (t : nat * nat * PlotCorr.Scatter) : Prop :=
  exists expr_rna expr_atac colors names,
    Spec.sample_data gene gene_dict (snd item)
    = Ok (expr_rna, expr_atac, colors)
    /\ Py.is_ok (PlotCorr.corr_score expr_rna expr_atac) = true
    /\ Py.comprehension (Py.getitem (PlotCorr.invert color_dict)) colors
       = Ok names
    /\ expr_rna <> [] /\ expr_atac <> []
    /\ t = ((fst item / 3 + 1)%nat, (fst item mod 3 + 1)%nat,
            PlotCorr.mkScatter expr_atac expr_rna colors names).

End Layers.

(* ================================================================== *)
(** * Further concrete inputs *)
(* ================================================================== *)

Module MoreSamples.

(** A gene whose expression is flat in every timepoint and whose
    accessibility vectors are longer than the expression vectors. *)
Definition flat_and_misaligned : PlotCorr.GeneDict :=
  [("slc4a1a",
    [("TDR126", ([1; 1]%Q, [1; 2; 3]%Q, ["#8dd3c7"]));
     ("TDR127", ([2; 2]%Q, [3; 1; 2]%Q, ["#008080"]));
     ("TDR128", ([3; 3]%Q, [9; 4; 1]%Q, ["#1f78b4"]));
     ("TDR118", ([4; 4]%Q, [2; 2; 2]%Q, ["#8dd3c7"]));
     ("TDR125", ([5; 5]%Q, [7; 8; 9]%Q, ["#008080"]));
     ("TDR124", ([6; 6]%Q, [5; 6; 7]%Q, ["#1f78b4"]))])].

(** A palette in which two cell types share a colour. *)
Definition shared_colour_palette : Py.dict string :=
  [("NMPs", "#8dd3c7"); ("PSM", "#008080"); ("Somites", "#8dd3c7")].

(** Three runs of the script: add, add, reset; then two more adds. *)
Definition add_add_reset : list App.Presses :=
  [App.mkPresses true false; App.mkPresses true false;
   App.mkPresses false true].

Definition add_add_reset_add_add : list App.Presses :=
  (add_add_reset
     ++ [App.mkPresses true false; App.mkPresses true false])%list.

End MoreSamples.

(* ================================================================== *)
(** * Facts about the Python fragments *)
(* ================================================================== *)

Module PyFacts.

(** Membership in [range(lo, hi, step)] for a positive step. *)
Lemma in_range (lo hi step t : Z) :
  (0 < step)%Z ->
  In t (Py.range lo hi step) <->
  exists k : Z, (0 <= k)%Z /\ t = (lo + step * k)%Z /\ (t < hi)%Z.
Proof.
  intros Hs. unfold Py.range. rewrite in_map_iff. split.
  - intros [k [Hk Hin]]. apply in_seq in Hin.
    exists (Z.of_nat k). split; [lia|]. split; [lia|]. subst t.
    unfold Py.range_length in Hin.
    destruct (lo <? hi)%Z eqn:E; [|simpl in Hin; lia].
    apply Z.ltb_lt in E.
    assert (Hk : (Z.of_nat k <= (hi - lo - 1) / step)%Z).
    { assert (0 <= (hi - lo - 1) / step)%Z by (apply Z.div_pos; lia). lia. }
    assert (step * Z.of_nat k <= hi - lo - 1)%Z; [|lia].
    transitivity (step * ((hi - lo - 1) / step))%Z.
    + apply Z.mul_le_mono_nonneg_l; lia.
    + apply Z.mul_div_le; lia.
  - intros [k [Hk0 [Ht Hlt]]]. exists (Z.to_nat k).
    split; [rewrite Z2Nat.id by lia; lia|].
    apply in_seq. split; [lia|]. simpl.
    unfold Py.range_length.
    assert (Hlo : (lo < hi)%Z) by nia.
    apply Z.ltb_lt in Hlo. rewrite Hlo.
    assert (k <= (hi - lo - 1) / step)%Z.
    { apply Z.div_le_lower_bound; lia. }
    lia.
Qed.


Lemma min2_some (x y : Z) : Py.min2 (Some x) (Some y) = Ok (Z.min x y).
Proof.
  simpl. f_equal. destruct (Z.ltb_spec y x); lia.
Qed.

Lemma max2_some (x y : Z) : Py.max2 (Some x) (Some y) = Ok (Z.max x y).
Proof.
  simpl. f_equal. rewrite Z.gtb_ltb. destruct (Z.ltb_spec x y); lia.
Qed.

End PyFacts.

(* ================================================================== *)
(** * Properties of [ccan/plot_both.py] *)
(* ================================================================== *)

Module PlotBothFacts.

Import PlotBoth Spec.
Local Open Scope Z_scope.

(** ** Columns *)

Lemma fold_min_spec (rest : list Z) (x : Z) :
  let m := fold_left Z.min rest x in
  (m = x \/ In m rest) /\ m <= x /\ forall y, In y rest -> m <= y.
Proof.
  revert x. induction rest as [|y rest IH]; intros x; simpl.
  - repeat split; auto; [lia | contradiction].
  - destruct (IH (Z.min x y)) as [Hin [Hle Hall]].
    repeat split.
    + destruct Hin as [Hin|Hin]; [|auto].
      rewrite Hin. destruct (Z.min_spec x y) as [[_ E]|[_ E]]; rewrite E; auto.
    + lia.
    + intros z [Hz|Hz]; [subst z; lia | auto].
Qed.

Lemma fold_max_spec (rest : list Z) (x : Z) :
  let m := fold_left Z.max rest x in
  (m = x \/ In m rest) /\ x <= m /\ forall y, In y rest -> y <= m.
Proof.
  revert x. induction rest as [|y rest IH]; intros x; simpl.
  - repeat split; auto; [lia | contradiction].
  - destruct (IH (Z.max x y)) as [Hin [Hle Hall]].
    repeat split.
    + destruct Hin as [Hin|Hin]; [|auto].
      rewrite Hin. destruct (Z.max_spec x y) as [[_ E]|[_ E]]; rewrite E; auto.
    + lia.
    + intros z [Hz|Hz]; [subst z; lia | auto].
Qed.

Lemma col_min_spec (col : list Z) :
  col <> [] -> exists m, col_min col = Some m /\ is_min_of col m.
Proof.
  destruct col as [|x rest]; [congruence|]. intros _.
  exists (fold_left Z.min rest x). split; [reflexivity|].
  destruct (fold_min_spec rest x) as [Hin [Hle Hall]].
  split.
  - simpl. destruct Hin as [Hin|Hin]; [left; symmetry; exact Hin | right; exact Hin].
  - intros y [Hy|Hy]; [subst y; exact Hle | auto].
Qed.

Lemma col_max_spec (col : list Z) :
  col <> [] -> exists m, col_max col = Some m /\ is_max_of col m.
Proof.
  destruct col as [|x rest]; [congruence|]. intros _.
  exists (fold_left Z.max rest x). split; [reflexivity|].
  destruct (fold_max_spec rest x) as [Hin [Hle Hall]].
  split.
  - simpl. destruct Hin as [Hin|Hin]; [left; symmetry; exact Hin | right; exact Hin].
  - intros y [Hy|Hy]; [subst y; exact Hle | auto].
Qed.

Lemma is_min_of_app (c1 c2 : list Z) (m1 m2 : Z) :
  is_min_of c1 m1 -> is_min_of c2 m2 -> is_min_of (c1 ++ c2) (Z.min m1 m2).
Proof.
  intros [I1 L1] [I2 L2]. split.
  - apply in_or_app.
    destruct (Z.min_spec m1 m2) as [[_ E]|[_ E]]; rewrite E; auto.
  - intros x Hx. apply in_app_or in Hx as [Hx|Hx].
    + specialize (L1 x Hx). lia.
    + specialize (L2 x Hx). lia.
Qed.

Lemma is_max_of_app (c1 c2 : list Z) (m1 m2 : Z) :
  is_max_of c1 m1 -> is_max_of c2 m2 -> is_max_of (c1 ++ c2) (Z.max m1 m2).
Proof.
  intros [I1 L1] [I2 L2]. split.
  - apply in_or_app.
    destruct (Z.max_spec m1 m2) as [[_ E]|[_ E]]; rewrite E; auto.
  - intros x Hx. apply in_app_or in Hx as [Hx|Hx].
    + specialize (L1 x Hx). lia.
    + specialize (L2 x Hx). lia.
Qed.

Lemma map_nonempty {A B : Type} (f : A -> B) (l : list A) :
  l <> [] -> map f l <> [].
Proof. destruct l; simpl; congruence. Qed.

(** ** Figures *)


Lemma annotations_fold_exons (exons : list (Z * Z)) (fig : Figure) :
  annotations (fold_left draw_exon exons fig) = annotations fig.
Proof.
  revert fig. induction exons as [|[s e] exons IH]; intros fig; simpl;
    [reflexivity|].
  now rewrite IH.
Qed.

(** ** Ticks *)

Lemma in_chromosome_ticks (start end_ t : Z) :
  In t (chromosome_ticks start end_) <-> on_stride start end_ tick_stride t.
Proof.
  unfold chromosome_ticks, on_stride, tick_stride.
  rewrite PyFacts.in_range by lia. split.
  - intros [k [Hk [Ht Hlt]]]. subst t. split; [lia|].
    replace (start + 5000 * k - start) with (k * 5000) by ring.
    apply Z.mod_mul. lia.
  - intros [Hr Hm]. exists ((t - start) / 5000).
    split; [apply Z.div_pos; lia|]. split; [|lia].
    pose proof (Z.div_mod (t - start) 5000 ltac:(lia)). lia.
Qed.



(** ** Display range *)

(** [C2] Genomic range resolution.  For a gene with at least one exon
    row and at least one peak row, the resolved range is
    [[min(min exon start, min peak start), max(max exon end, max peak end)]]:
    its lower end is the minimum over the start columns of both
    tables and its upper end the maximum over both end columns. *)
Theorem display_range_is_min_max (gene_data : list GeneRow)
        (atac_data : list AtacRow) :
  gene_data <> [] -> atac_data <> [] ->
  exists gs ps ge pe,
    is_min_of (map g_start gene_data) gs
    /\ is_min_of (map a_start atac_data) ps
    /\ is_max_of (map g_end gene_data) ge
    /\ is_max_of (map a_end atac_data) pe
    /\ display_range gene_data atac_data = Ok (Z.min gs ps, Z.max ge pe)
    /\ is_min_of (map g_start gene_data ++ map a_start atac_data)
                 (Z.min gs ps)
    /\ is_max_of (map g_end gene_data ++ map a_end atac_data)
                 (Z.max ge pe).
Proof.
  intros Hg Ha.
  destruct (col_min_spec (map g_start gene_data)
              (map_nonempty g_start gene_data Hg)) as [gs [Egs Hgs]].
  destruct (col_min_spec (map a_start atac_data)
              (map_nonempty a_start atac_data Ha)) as [ps [Eps Hps]].
  destruct (col_max_spec (map g_end gene_data)
              (map_nonempty g_end gene_data Hg)) as [ge [Ege Hge]].
  destruct (col_max_spec (map a_end atac_data)
              (map_nonempty a_end atac_data Ha)) as [pe [Epe Hpe]].
  exists gs, ps, ge, pe.
  repeat (split; [assumption|]).
  split.
  - unfold display_range. rewrite Egs, Eps, Ege, Epe.
    rewrite PyFacts.min2_some, PyFacts.max2_some. reflexivity.
  - split; [apply is_min_of_app | apply is_max_of_app]; assumption.
Qed.

Lemma display_range_is_min_max_witness :
  Samples.slc4a1a_exons <> [] /\ Samples.slc4a1a_peaks <> []
  /\ display_range Samples.slc4a1a_exons Samples.slc4a1a_peaks
     = Ok (100, 400).
Proof.
  split; [discriminate|]. split; [discriminate|].
  destruct (display_range_is_min_max Samples.slc4a1a_exons
              Samples.slc4a1a_peaks)
    as [gs [ps [ge [pe [_ [_ [_ [_ [E _]]]]]]]]]; try discriminate.
  reflexivity.
Defined.

(** ** Missing gene *)

Lemma filter_none {A : Type} (f : A -> bool) (l : list A) :
  (forall x, In x l -> f x = false) -> filter f l = [].
Proof.
  induction l as [|x l IH]; intros H; simpl; [reflexivity|].
  rewrite (H x (or_introl eq_refl)). apply IH.
  intros y Hy. apply H. now right.
Qed.

Lemma display_range_empty (gene_data : list GeneRow)
      (atac_data : list AtacRow) :
  gene_data = [] \/ atac_data = [] ->
  display_range gene_data atac_data = Raise TypeError.
Proof.
  intros [E|E]; subst; unfold display_range; simpl.
  - reflexivity.
  - destruct (col_min (map g_start gene_data)); reflexivity.
Qed.

(** [C7] Gene not found.  When the exon table or the peak table holds
    no row for the requested gene, range resolution raises (here: the
    [TypeError] of ordering [None]), returns no numeric range, and
    [combined_plot] aborts with that exception instead of returning a
    figure. *)
Theorem missing_gene_aborts_render (genes : list GeneRow)
        (access : list AtacRow) (option : string) :
  (forall r, In r genes -> g_gene_name r <> option)
  \/ (forall r, In r access -> a_gene_name r <> option) ->
  (forall range,
      display_range (fst (get_data genes access option))
                    (snd (get_data genes access option)) <> Ok range)
  /\ display_range (fst (get_data genes access option))
                   (snd (get_data genes access option)) = Raise TypeError
  /\ combined_plot genes access option = Raise TypeError
  /\ Py.is_ok (combined_plot genes access option) = false.
Proof.
  intros H.
  assert (E : display_range (fst (get_data genes access option))
                            (snd (get_data genes access option))
              = Raise TypeError).
  { apply display_range_empty. simpl.
    destruct H as [H|H]; [left|right]; apply filter_none; intros r Hr;
      apply String.eqb_neq; auto. }
  assert (C : combined_plot genes access option = Raise TypeError).
  { unfold combined_plot, get_data, combined_plot_on.
    simpl in E. rewrite E. reflexivity. }
  split; [intros range; rewrite E; discriminate|].
  split; [exact E|]. split; [exact C|]. rewrite C. reflexivity.
Qed.

Lemma missing_gene_aborts_render_witness :
  ((forall r, In r Samples.other_genes -> g_gene_name r <> "slc4a1a")
   \/ (forall r, In r Samples.slc4a1a_peaks -> a_gene_name r <> "slc4a1a"))
  /\ combined_plot Samples.other_genes Samples.slc4a1a_peaks "slc4a1a"
     = Raise TypeError.
Proof.
  assert (H : (forall r, In r Samples.other_genes
                         -> g_gene_name r <> "slc4a1a")
              \/ (forall r, In r Samples.slc4a1a_peaks
                            -> a_gene_name r <> "slc4a1a")).
  { left. intros r [Hr|[]]. subst r. simpl. discriminate. }
  split; [exact H|].
  apply (missing_gene_aborts_render Samples.other_genes
           Samples.slc4a1a_peaks "slc4a1a" H).
Defined.

(** ** Strand arrow *)

Lemma plot_gene_arrow (fig : Figure) (r : GeneRow) (rest : list GeneRow)
      (start end_ : Z) :
  exists gs ge fig',
    is_min_of (map g_start (r :: rest)) gs
    /\ is_max_of (map g_end (r :: rest)) ge
    /\ plot_gene fig (r :: rest) start end_ = Ok fig'
    /\ annotations fig'
       = (annotations fig
            ++ [if String.eqb (g_strand r) "+" then arrow ge gs
                else arrow gs ge])%list.
Proof.
  destruct (col_min_spec (map g_start (r :: rest))) as [gs [Egs Hgs]];
    [discriminate|].
  destruct (col_max_spec (map g_end (r :: rest))) as [ge [Ege Hge]];
    [discriminate|].
  exists gs, ge. unfold plot_gene. rewrite Egs, Ege.
  cbn [map Py.first Py.bind].
  destruct (String.eqb (g_strand r) "+"); eexists;
    (split; [exact Hgs|]); (split; [exact Hge|]);
    (split; [reflexivity|]);
    unfold add_annotation; cbn [annotations];
    rewrite annotations_fold_exons; reflexivity.
Qed.

(** [C4] Strand arrow direction.  The arrow spans the gene's full
    extent, from the minimum exon start [gs] to the maximum exon end
    [ge]: on strand ["+"] its tail is at [gs] and its head at [ge]; on
    strand ["-"] its tail is at [ge] and its head at [gs].  Two tables
    with identical coordinates and opposite strands therefore get
    arrows whose head and tail are exchanged. *)
Theorem strand_arrow_direction (fig : Figure) (r : GeneRow)
        (rest : list GeneRow) (start end_ : Z) :
  exists gs ge,
    is_min_of (map g_start (r :: rest)) gs
    /\ is_max_of (map g_end (r :: rest)) ge
    /\ (g_strand r = "+"%string ->
        exists fig',
          plot_gene fig (r :: rest) start end_ = Ok fig'
          /\ annotations fig' = (annotations fig ++ [arrow ge gs])%list
          /\ an_ax (arrow ge gs) = Some gs
          /\ an_x (arrow ge gs) = Some ge)
    /\ (g_strand r = "-"%string ->
        exists fig',
          plot_gene fig (r :: rest) start end_ = Ok fig'
          /\ annotations fig' = (annotations fig ++ [arrow gs ge])%list
          /\ an_ax (arrow gs ge) = Some ge
          /\ an_x (arrow gs ge) = Some gs)
    /\ (forall r' rest' figp figm,
           coordinates (r' :: rest') = coordinates (r :: rest) ->
           g_strand r = "+"%string -> g_strand r' = "-"%string ->
           plot_gene fig (r :: rest) start end_ = Ok figp ->
           plot_gene fig (r' :: rest') start end_ = Ok figm ->
           exists ap am,
             annotations figp = (annotations fig ++ [ap])%list
             /\ annotations figm = (annotations fig ++ [am])%list
             /\ an_x ap = an_ax am /\ an_ax ap = an_x am).
Proof.
  destruct (plot_gene_arrow fig r rest start end_)
    as [gs [ge [fig' [Hgs [Hge [E A]]]]]].
  exists gs, ge. split; [exact Hgs|]. split; [exact Hge|].
  split; [|split].
  - intros S. rewrite S in A. exists fig'. auto.
  - intros S. rewrite S in A. exists fig'. auto.
  - intros r' rest' figp figm Hc Sp Sm Ep Em.
    rewrite E in Ep. injection Ep as <-.
    destruct (plot_gene_arrow fig r' rest' start end_)
      as [gs' [ge' [fig'' [Hgs' [Hge' [E' A']]]]]].
    rewrite E' in Em. injection Em as <-.
    rewrite Sp in A. rewrite Sm in A'. cbn [String.eqb] in A, A'.
    assert (Hs : map g_start (r' :: rest') = map g_start (r :: rest)).
    { unfold coordinates in Hc.
      apply (f_equal (map fst)) in Hc. rewrite !map_map in Hc. exact Hc. }
    assert (He : map g_end (r' :: rest') = map g_end (r :: rest)).
    { unfold coordinates in Hc.
      apply (f_equal (map snd)) in Hc. rewrite !map_map in Hc. exact Hc. }
    rewrite Hs in Hgs'. rewrite He in Hge'.
    assert (gs' = gs).
    { destruct Hgs as [I1 L1], Hgs' as [I2 L2].
      specialize (L1 _ I2). specialize (L2 _ I1). lia. }
    assert (ge' = ge).
    { destruct Hge as [I1 L1], Hge' as [I2 L2].
      specialize (L1 _ I2). specialize (L2 _ I1). lia. }
    subst gs' ge'.
    exists (arrow ge gs), (arrow gs ge). auto.
Qed.



(** ** Ticks of a three-stride range *)

Example ticks_of_12_kbp :
  chromosome_ticks 100 12000 = [100; 5100; 10100]
  /\ map tick_label (chromosome_ticks 100 12000)
     = ["0"; "5"; "10"]%string
  /\ map tick_hover (chromosome_ticks 100 12000)
     = ["0 kbp"; "5 kbp"; "10 kbp"]%string.
Proof. repeat split; reflexivity. Qed.

(** ** The end-to-end scenario of the specification *)

Example scenario_forward_strand :
  exists fig x,
    combined_plot Samples.slc4a1a_exons Samples.slc4a1a_peaks "slc4a1a"
    = Ok fig
    /\ display_range Samples.slc4a1a_exons Samples.slc4a1a_peaks
       = Ok (100, 400)
    /\ annotations fig = [arrow 400 100]
    /\ map (fun r => (r_x0 r, r_x1 r)) (shapes fig)
       = [(100, 200); (300, 400); (150, 350)]
    /\ xaxis fig = Some x
    /\ xa_tickvals x = [100]
    /\ xa_ticktext x = ["0"%string].
Proof.
  eexists. eexists. split; [vm_compute; reflexivity|].
  repeat split; reflexivity.
Qed.

Example scenario_reverse_strand :
  exists fig,
    plot_gene empty_figure Samples.reverse_exons 100 400 = Ok fig
    /\ annotations fig = [arrow 100 400].
Proof.
  eexists. split; [vm_compute; reflexivity | reflexivity].
Qed.

End PlotBothFacts.

(* ================================================================== *)
(** * Real-number facts behind the correlation coefficient *)
(* ================================================================== *)

Module PearsonFacts.

Import PlotCorr.
Local Open Scope R_scope.

Lemma dot_nil_l (b : list R) : dot [] b = 0.
Proof. reflexivity. Qed.

Lemma dot_cons (x y : R) (a b : list R) :
  dot (x :: a) (y :: b) = x * y + dot a b.
Proof. reflexivity. Qed.

Lemma dot_self_nonneg (a : list R) : 0 <= dot a a.
Proof.
  induction a as [|x a IH]; [unfold dot; simpl; lra|].
  rewrite dot_cons. nra.
Qed.

Lemma dot_scale (c d : R) (a b : list R) :
  dot (map (fun v => v / c) a) (map (fun v => v / d) b)
  = dot a b / (c * d).
Proof.
  revert b. induction a as [|x a IH]; intros b.
  - simpl. rewrite !dot_nil_l. unfold Rdiv. lra.
  - destruct b as [|y b].
    + unfold dot. simpl. unfold Rdiv. lra.
    + cbn [map]. rewrite !dot_cons, IH.
      unfold Rdiv. rewrite Rinv_mult. ring.
Qed.

(** The Cauchy-Schwarz inequality on sequences. *)
Lemma cauchy_schwarz (a b : list R) :
  dot a b * dot a b <= dot a a * dot b b.
Proof.
  revert b. induction a as [|x a IH]; intros b.
  - rewrite !dot_nil_l. pose proof (dot_self_nonneg b). nra.
  - destruct b as [|y b].
    + unfold dot at 1 2 4. simpl. lra.
    + rewrite !dot_cons.
      pose proof (IH b) as C.
      pose proof (dot_self_nonneg a) as A.
      pose proof (dot_self_nonneg b) as B.
      set (p := dot a b) in *. set (u := dot a a) in *.
      set (w := dot b b) in *.
      clear IH. clearbody p u w.
      (* 2 p x y <= u y^2 + w x^2 *)
      assert (K : 2 * p * (x * y) <= u * (y * y) + w * (x * x)).
      { destruct (Rle_dec (2 * p * (x * y)) 0) as [N|N]; [nra|].
        apply Rnot_le_lt in N.
        assert (S : (2 * p * (x * y)) * (2 * p * (x * y))
                    <= (u * (y * y) + w * (x * x))
                       * (u * (y * y) + w * (x * x))).
        { assert (4 * (p * p) * ((x * y) * (x * y))
                  <= 4 * (u * w) * ((x * y) * (x * y))).
          { apply Rmult_le_compat_r; [exact (Rle_0_sqr _) | lra]. }
          assert (0 <= (u * (y * y) - w * (x * x))
                       * (u * (y * y) - w * (x * x)))
            by exact (Rle_0_sqr _).
          nra. }
        assert (0 <= u * (y * y) + w * (x * x)) by nra.
        nra. }
      nra.
Qed.

Lemma dot_self_pos (a : list R) (v : R) :
  In v a -> v <> 0 -> 0 < dot a a.
Proof.
  induction a as [|x a IH]; intros Hin Hv; [contradiction|].
  rewrite dot_cons. pose proof (dot_self_nonneg a) as A.
  destruct Hin as [E|Hin].
  - subst x. assert (0 < v * v) by nra. lra.
  - specialize (IH Hin Hv). nra.
Qed.

Lemma combine_map {A B C D : Type} (f : A -> C) (g : B -> D)
      (a : list A) (b : list B) :
  combine (map f a) (map g b)
  = map (fun p => (f (fst p), g (snd p))) (combine a b).
Proof.
  revert b. induction a as [|x a IH]; intros [|y b]; simpl; auto.
  now rewrite IH.
Qed.

Lemma combine_diag {A : Type} (a : list A) :
  combine a a = map (fun v => (v, v)) a.
Proof. induction a as [|x a IH]; simpl; [reflexivity|]. now rewrite IH. Qed.

(** The sums of the textbook formula are the dot products of the
    centred vectors. *)
Lemma dot_centered (x y : list R) :
  dot (centered x) (centered y)
  = Rsum (map (fun p => (fst p - mean x) * (snd p - mean y))
              (combine x y)).
Proof.
  unfold dot, centered. rewrite combine_map, map_map. reflexivity.
Qed.

Lemma dot_centered_self (x : list R) :
  dot (centered x) (centered x)
  = Rsum (map (fun a => (a - mean x) * (a - mean x)) x).
Proof.
  rewrite dot_centered, combine_diag, map_map. reflexivity.
Qed.

Lemma clip_id (r : R) : -1 <= r <= 1 -> clip r = r.
Proof.
  intros [L U]. unfold clip, Rmax, Rmin.
  destruct (Rle_dec r 1); [|lra].
  destruct (Rle_dec r (-1)); lra.
Qed.

(** A quotient bounded by Cauchy-Schwarz lies in [[-1, 1]]. *)
Lemma ratio_bounds (c u w : R) :
  0 < u -> 0 < w -> c * c <= u * w ->
  -1 <= c / (sqrt u * sqrt w) <= 1.
Proof.
  intros U W C.
  rewrite <- sqrt_mult by lra.
  assert (P : 0 < u * w) by nra.
  pose proof (sqrt_lt_R0 _ P) as S.
  pose proof (sqrt_sqrt (u * w) ltac:(lra)) as Q.
  set (s := sqrt (u * w)) in *. clearbody s.
  assert (B : - s <= c <= s) by (split; nra).
  assert (I : 0 < / s) by (apply Rinv_0_lt_compat; exact S).
  assert (E : s * / s = 1) by (apply Rinv_r; lra).
  unfold Rdiv. split; nra.
Qed.

(** The value [pearsonr] computes is the textbook coefficient, and it
    lies in [[-1, 1]] already before clipping. *)
Lemma scipy_formula (x y : list R) :
  0 < dot (centered x) (centered x) ->
  0 < dot (centered y) (centered y) ->
  let r := dot (map (fun v => v / norm (centered x)) (centered x))
               (map (fun v => v / norm (centered y)) (centered y)) in
  clip r = Spec.pearson_coefficient x y /\ -1 <= clip r <= 1.
Proof.
  intros U W r.
  assert (E : r = Spec.pearson_coefficient x y).
  { unfold r, Spec.pearson_coefficient. cbv zeta.
    rewrite dot_scale. unfold norm.
    rewrite <- dot_centered, <- !dot_centered_self. reflexivity. }
  assert (B : -1 <= r <= 1).
  { unfold r. rewrite dot_scale. unfold norm.
    apply ratio_bounds; auto. apply cauchy_schwarz. }
  rewrite (clip_id r B). split; [exact E | exact B].
Qed.

(** A vector with an element different from another one has an
    element different from its mean. *)
Lemma off_mean (l : list R) (a b : R) :
  In a l -> In b l -> a <> b ->
  0 < dot (centered l) (centered l).
Proof.
  intros Ha Hb Hab.
  destruct (Req_dec a (mean l)) as [E|N].
  - apply (dot_self_pos (centered l) (b - mean l)).
    + unfold centered. apply in_map_iff. exists b. auto.
    + lra.
  - apply (dot_self_pos (centered l) (a - mean l)).
    + unfold centered. apply in_map_iff. exists a. auto.
    + lra.
Qed.

End PearsonFacts.

(* ================================================================== *)
(** * Properties of [corr/plot_corr.py]: the correlation value *)
(* ================================================================== *)

Module CorrelationFacts.

Import PlotCorr Spec.

(** ** The zero-variance guard *)

Lemma forallb_eq_first (v0 : Q) (v : list Q) :
  forallb (fun x => Qeq_bool x v0) v = true
  <-> forall x, In x v -> (x == v0)%Q.
Proof.
  rewrite forallb_forall. split; intros H x Hx.
  - apply Qeq_bool_iff. auto.
  - apply Qeq_bool_iff. auto.
Qed.

Lemma guard_true_constant (v0 : Q) (rest : list Q) :
  all_equal_first (v0 :: rest) = Ok true <-> constant (v0 :: rest).
Proof.
  unfold all_equal_first. cbn [Py.first Py.bind]. split.
  - intros H. injection H as H.
    pose proof (proj1 (forallb_eq_first v0 (v0 :: rest)) H) as F.
    intros a b Ha Hb. rewrite (F a Ha), (F b Hb). reflexivity.
  - intros C. f_equal. apply forallb_eq_first.
    intros x Hx. apply C; [exact Hx | now left].
Qed.

Lemma guard_total (v : list Q) :
  v <> [] ->
  (all_equal_first v = Ok true /\ constant v)
  \/ (all_equal_first v = Ok false /\ ~ constant v).
Proof.
  destruct v as [|v0 rest]; [congruence|]. intros _.
  destruct (forallb (fun x => Qeq_bool x v0) (v0 :: rest)) eqn:E.
  - left. assert (G : all_equal_first (v0 :: rest) = Ok true).
    { unfold all_equal_first. cbn [Py.first Py.bind]. now rewrite E. }
    split; [exact G | now apply guard_true_constant].
  - right. assert (G : all_equal_first (v0 :: rest) = Ok false).
    { unfold all_equal_first. cbn [Py.first Py.bind]. now rewrite E. }
    split; [exact G|]. intros C. apply guard_true_constant in C.
    rewrite G in C. discriminate.
Qed.

Lemma guard_empty : all_equal_first [] = Raise IndexError.
Proof. reflexivity. Qed.

(** A vector of one observation always passes the guard. *)
Lemma guard_singleton (v : list Q) :
  List.length v = 1%nat -> all_equal_first v = Ok true.
Proof.
  destruct v as [|a [|b v]]; try discriminate. intros _.
  apply guard_true_constant. intros x y [<-|[]] [<-|[]]. reflexivity.
Qed.

(** When the guard is false two observations differ, so the centred
    vector has a positive sum of squares and at least two entries. *)
Lemma guard_false_spread (v : list Q) :
  all_equal_first v = Ok false ->
  (0 < dot (centered (map Q2R v)) (centered (map Q2R v)))%R
  /\ (2 <= List.length v)%nat.
Proof.
  destruct v as [|v0 rest]; [discriminate|].
  unfold all_equal_first. cbn [Py.first Py.bind]. intros H.
  injection H as H.
  assert (Hex : exists x, In x (v0 :: rest) /\ ~ (x == v0)%Q).
  { destruct (existsb (fun x => negb (Qeq_bool x v0)) (v0 :: rest)) eqn:E.
    - apply existsb_exists in E as [x [Hx Hn]]. exists x. split; [exact Hx|].
      intros Q. apply Qeq_bool_iff in Q. rewrite Q in Hn. discriminate.
    - exfalso. assert (T : forallb (fun x => Qeq_bool x v0) (v0 :: rest)
                           = true).
      { apply forallb_forall. intros x Hx.
        destruct (Qeq_bool x v0) eqn:B; [reflexivity|].
        assert (existsb (fun x => negb (Qeq_bool x v0)) (v0 :: rest)
                = true).
        { apply existsb_exists. exists x. rewrite B. auto. }
        congruence. }
      cbn [forallb] in T. congruence. }
  destruct Hex as [x [Hx Hn]]. split.
  - apply (PearsonFacts.off_mean (map Q2R (v0 :: rest)) (Q2R x) (Q2R v0)).
    + apply in_map. exact Hx.
    + apply in_map. now left.
    + intros E. apply Hn. apply eqR_Qeq. exact E.
  - destruct rest as [|y rest]; [|simpl; lia].
    destruct Hx as [<-|[]]. exfalso. apply Hn. reflexivity.
Qed.

(** ** The correlation of one timepoint *)

Lemma corr_score_guarded
      (correlate : list Q -> list Q -> result score)
      (expr_rna expr_atac : list Q) :
  all_equal_first expr_rna = Ok true
  \/ (all_equal_first expr_rna = Ok false
      /\ all_equal_first expr_atac = Ok true) ->
  corr_score_with correlate expr_rna expr_atac = Ok NaN.
Proof.
  unfold corr_score_with.
  intros [H|[H1 H2]]; [rewrite H | rewrite H1, H2]; reflexivity.
Qed.

Lemma corr_score_computed (expr_rna expr_atac : list Q) :
  all_equal_first expr_rna = Ok false ->
  all_equal_first expr_atac = Ok false ->
  List.length expr_rna = List.length expr_atac ->
  let r := pearson_coefficient (map Q2R expr_rna) (map Q2R expr_atac) in
  corr_score expr_rna expr_atac = Ok (Num r) /\ (-1 <= r <= 1)%R.
Proof.
  intros Gx Gy L r.
  destruct (guard_false_spread expr_rna Gx) as [Sx Nx].
  destruct (guard_false_spread expr_atac Gy) as [Sy _].
  destruct (PearsonFacts.scipy_formula _ _ Sx Sy) as [E B].
  fold r in E. rewrite E in B. split; [|exact B].
  unfold corr_score, corr_score_with. rewrite Gx, Gy.
  cbn [Py.bind]. unfold pearsonr.
  rewrite <- L, Nat.eqb_refl. cbn [negb].
  assert (T : (List.length expr_rna <? 2)%nat = false)
    by (apply Nat.ltb_ge; exact Nx).
  rewrite T, Gx, Gy. cbn [Py.bind orb].
  rewrite <- E. reflexivity.
Qed.

(** Outside the data contract the guard itself raises: an empty
    expression vector, or an empty accessibility vector next to a
    varying expression vector. *)
Lemma corr_score_empty (expr_rna expr_atac : list Q) :
  corr_score [] expr_atac = Raise IndexError
  /\ (all_equal_first expr_rna = Ok false ->
      corr_score expr_rna [] = Raise IndexError).
Proof.
  split; [reflexivity|].
  intros G. unfold corr_score, corr_score_with. rewrite G. reflexivity.
Qed.

(** What the guard keeps away from the library routine: on a single
    observation per vector [pearsonr] raises. *)
Lemma pearsonr_single_observation (a b : Q) :
  pearsonr [a] [b] = Raise ValueError.
Proof. reflexivity. Qed.

(** ** Formatting *)




(** ** The examples of the specification *)








(** ** Single observations *)

Lemma single_observation_guard
      (correlate : list Q -> list Q -> result score)
      (expr_rna expr_atac : list Q) :
  expr_rna <> [] ->
  (List.length expr_rna = 1 \/ List.length expr_atac = 1)%nat ->
  corr_score_with correlate expr_rna expr_atac = Ok NaN.
Proof.
  intros Hne H. apply corr_score_guarded.
  destruct (guard_total expr_rna Hne) as [[G _]|[G _]]; [now left|].
  right. split; [exact G|].
  destruct H as [H|H]; [|now apply guard_singleton].
  apply guard_singleton in H. congruence.
Qed.

(** [C9] Single observation.  For a timepoint (aligned vectors) whose
    expression or accessibility vector has length 1, the zero-variance
    guard holds trivially, the correlation is the [nan] sentinel, and
    the result does not depend on the correlation routine at all: the
    routine is not invoked, whatever it would do on such input. *)
Theorem single_observation_yields_nan
        (correlate : list Q -> list Q -> result score)
        (expr_rna expr_atac : list Q) :
  List.length expr_rna = List.length expr_atac ->
  (List.length expr_rna = 1 \/ List.length expr_atac = 1)%nat ->
  all_equal_first expr_rna = Ok true
  /\ all_equal_first expr_atac = Ok true
  /\ corr_score expr_rna expr_atac = Ok NaN
  /\ corr_score_with correlate expr_rna expr_atac = Ok NaN.
Proof.
  intros L H.
  assert (Lx : List.length expr_rna = 1%nat) by (destruct H; congruence).
  assert (Ly : List.length expr_atac = 1%nat) by congruence.
  assert (Hne : expr_rna <> []) by (intros E; subst; discriminate).
  split; [now apply guard_singleton|].
  split; [now apply guard_singleton|].
  split; apply single_observation_guard; auto.
Qed.

Lemma single_observation_yields_nan_witness :
  List.length [7 # 2]%Q = List.length [3]%Q
  /\ (List.length [7 # 2]%Q = 1 \/ List.length [3]%Q = 1)%nat
  /\ corr_score_with (fun _ _ => Raise ValueError) [7 # 2]%Q [3]%Q
     = Ok NaN.
Proof.
  assert (L : List.length [7 # 2]%Q = List.length [3]%Q) by reflexivity.
  assert (H : (List.length [7 # 2]%Q = 1 \/ List.length [3]%Q = 1)%nat)
    by (left; reflexivity).
  split; [exact L|]. split; [exact H|].
  apply (single_observation_yields_nan (fun _ _ => Raise ValueError)
           [7 # 2]%Q [3]%Q L H).
Defined.

End CorrelationFacts.

(* ================================================================== *)
(** * Properties of [corr/plot_corr.py]: colours and cell types *)
(* ================================================================== *)

Module PaletteFacts.

Import PlotCorr Spec.

(** ** Dictionaries *)

Lemma getitem_setitem {V : Type} (d : Py.dict V) (k k' : string) (v : V) :
  Py.getitem (Py.setitem d k v) k'
  = if String.eqb k k' then Ok v else Py.getitem d k'.
Proof.
  induction d as [|[k0 v0] d IH]; cbn [Py.setitem Py.getitem].
  - reflexivity.
  - destruct (String.eqb_spec k0 k) as [E|N]; cbn [Py.getitem].
    + subst k0. destruct (String.eqb k k'); reflexivity.
    + rewrite IH. destruct (String.eqb_spec k0 k') as [E'|N'];
        [|reflexivity].
      subst k'. destruct (String.eqb_spec k k0); [congruence|reflexivity].
Qed.

Lemma getitem_In {V : Type} (d : Py.dict V) (k : string) (v : V) :
  Py.getitem d k = Ok v -> In (k, v) d.
Proof.
  induction d as [|[k0 v0] d IH]; cbn [Py.getitem]; [discriminate|].
  destruct (String.eqb_spec k0 k) as [E|N].
  - intros H. injection H as <-. subst. now left.
  - intros H. right. auto.
Qed.

Lemma In_getitem {V : Type} (d : Py.dict V) (k : string) (v : V) :
  Py.wf_dict d -> In (k, v) d -> Py.getitem d k = Ok v.
Proof.
  unfold Py.wf_dict, Py.keys.
  induction d as [|[k0 v0] d IH]; cbn [map fst Py.getitem];
    intros ND Hin; [contradiction|].
  inversion ND as [|? ? Hnot ND']; subst.
  destruct Hin as [E|Hin].
  - injection E as -> ->. now rewrite String.eqb_refl.
  - destruct (String.eqb_spec k0 k) as [E|N]; [|auto].
    subst k0. exfalso. apply Hnot.
    apply in_map_iff. exists (k, v). auto.
Qed.

Lemma getitem_raises_KeyError {V : Type} (d : Py.dict V) (k : string)
      (e : exn) :
  Py.getitem d k = Raise e -> e = KeyError.
Proof.
  induction d as [|[k0 v0] d IH]; cbn [Py.getitem].
  - intros H. now injection H as <-.
  - destruct (String.eqb k0 k); [discriminate | exact IH].
Qed.

(** ** The inverted palette *)

Lemma invert_absent (l : list (string * string)) (acc : Py.dict string)
      (c : string) :
  ~ In c (map snd l) ->
  Py.getitem (fold_left invert_step l acc) c = Py.getitem acc c.
Proof.
  revert acc. induction l as [|[k v] l IH]; intros acc Hn; [reflexivity|].
  cbn [fold_left]. rewrite IH.
  - unfold invert_step. cbn [fst snd]. rewrite getitem_setitem.
    destruct (String.eqb_spec v c) as [E|N]; [|reflexivity].
    exfalso. apply Hn. left. exact E.
  - intros Hin. apply Hn. right. exact Hin.
Qed.

Lemma invert_last (l1 l2 : list (string * string)) (acc : Py.dict string)
      (k c : string) :
  ~ In c (map snd l2) ->
  Py.getitem (fold_left invert_step (l1 ++ (k, c) :: l2)%list acc) c = Ok k.
Proof.
  intros Hn. rewrite fold_left_app. cbn [fold_left].
  rewrite invert_absent by exact Hn.
  unfold invert_step at 1. cbn [fst snd].
  rewrite getitem_setitem, String.eqb_refl. reflexivity.
Qed.

Lemma last_occurrence (l : list (string * string)) (c : string) :
  In c (map snd l) ->
  exists l1 k l2, l = (l1 ++ (k, c) :: l2)%list /\ ~ In c (map snd l2).
Proof.
  induction l as [|[k0 v0] l IH]; [contradiction|].
  intros Hin.
  destruct (in_dec string_dec c (map snd l)) as [Hl|Hl].
  - destruct (IH Hl) as [l1 [k [l2 [E Hn]]]].
    exists ((k0, v0) :: l1), k, l2. rewrite E. auto.
  - destruct Hin as [E|Hin]; [|contradiction].
    cbn [snd] in E. subst v0. exists [], k0, l. auto.
Qed.

Lemma invert_unfold (d : Py.dict string) :
  invert d = fold_left invert_step d [].
Proof. reflexivity. Qed.

Lemma invert_missing (color_dict : Py.dict string) (c : string) :
  ~ In c (Py.values color_dict) ->
  Py.getitem (invert color_dict) c = Raise KeyError.
Proof.
  intros Hn. rewrite invert_unfold. now rewrite invert_absent.
Qed.

Lemma invert_present (color_dict : Py.dict string) (c : string) :
  In c (Py.values color_dict) ->
  exists k, Py.getitem (invert color_dict) c = Ok k /\ In (k, c) color_dict.
Proof.
  intros Hin. destruct (last_occurrence color_dict c Hin)
    as [l1 [k [l2 [E Hn]]]].
  exists k. split.
  - rewrite invert_unfold. rewrite E. now apply invert_last.
  - rewrite E. apply in_or_app. right. now left.
Qed.

Lemma comprehension_raises (d : Py.dict string) (colors : list string)
      (c : string) :
  In c colors -> Py.getitem d c = Raise KeyError ->
  Py.comprehension (Py.getitem d) colors = Raise KeyError.
Proof.
  induction colors as [|x colors IH]; intros Hin Hc; [contradiction|].
  cbn [Py.comprehension].
  destruct (Py.getitem d x) as [y|e] eqn:Ex.
  - destruct Hin as [E|Hin]; [subst x; congruence|].
    cbn [Py.bind]. rewrite (IH Hin Hc). reflexivity.
  - cbn [Py.bind]. f_equal. exact (getitem_raises_KeyError d x e Ex).
Qed.

Section Palette.

(** Modelled from the spec: the palette returned by
    [define_color_dict] ([preprocess.py], not embedded here) is a
    dictionary that gives one colour per cell type and is injective. *)
Variable color_dict : Py.dict string.
Hypothesis color_dict_wf : Py.wf_dict color_dict.
Hypothesis color_dict_injective : injective color_dict.

Lemma round_trip (k c : string) :
  Py.getitem color_dict k = Ok c ->
  Py.getitem (invert color_dict) c = Ok k.
Proof.
  intros H.
  assert (Hin : In c (Py.values color_dict)).
  { apply in_map_iff. exists (k, c). split; [reflexivity|].
    now apply getitem_In. }
  destruct (invert_present color_dict c Hin) as [k' [E Hk']].
  rewrite E. f_equal.
  apply (color_dict_injective k' k c); [|exact H].
  now apply In_getitem.
Qed.

Lemma names_of_known_colors (colors : list string) :
  (forall c, In c colors -> In c (Py.values color_dict)) ->
  exists names,
    Py.comprehension (Py.getitem (invert color_dict)) colors = Ok names
    /\ Forall2 (fun c k => Py.getitem color_dict k = Ok c) colors names.
Proof.
  induction colors as [|c colors IH]; intros H.
  - exists []. split; [reflexivity | constructor].
  - destruct IH as [names [E F]]; [intros x Hx; apply H; now right|].
    destruct (invert_present color_dict c (H c (or_introl eq_refl)))
      as [k [Ek Hk]].
    exists (k :: names). split.
    + cbn [Py.comprehension]. rewrite Ek. cbn [Py.bind]. rewrite E.
      reflexivity.
    + constructor; [now apply In_getitem | exact F].
Qed.

End Palette.

(** [C8] Colour / cell-type round trip.  For a palette that is a
    dictionary with one colour per cell type and is injective: looking
    a cell type up and then looking its colour up in the inverted
    dictionary returns the original cell type, for every entry of the
    palette; a colour that is not in the palette makes the inverse
    lookup raise [KeyError], and so does the construction of the hover
    names for a list of colours containing such a colour, while a
    list of known colours is translated name by name. *)
Theorem color_celltype_round_trip (color_dict : Py.dict string) :
  Py.wf_dict color_dict ->
  injective color_dict ->
  (forall k c,
      Py.getitem color_dict k = Ok c ->
      Py.getitem (invert color_dict) c = Ok k)
  /\ (forall c,
         ~ In c (Py.values color_dict) ->
         Py.getitem (invert color_dict) c = Raise KeyError)
  /\ (forall colors c,
         In c colors -> ~ In c (Py.values color_dict) ->
         Py.comprehension (Py.getitem (invert color_dict)) colors
         = Raise KeyError)
  /\ (forall colors,
         (forall c, In c colors -> In c (Py.values color_dict)) ->
         exists names,
           Py.comprehension (Py.getitem (invert color_dict)) colors
           = Ok names
           /\ Forall2 (fun c k => Py.getitem color_dict k = Ok c)
                      colors names).
Proof.
  intros WF INJ.
  split; [intros k c; now apply round_trip|].
  split; [intros c; apply invert_missing|].
  split.
  - intros colors c Hin Hn.
    apply (comprehension_raises _ colors c Hin).
    now apply invert_missing.
  - intros colors. now apply names_of_known_colors.
Qed.

(** Injectivity is exactly what the round trip needs: a palette that
    gives two cell types the same colour loses one of them. *)
Lemma round_trip_needs_injectivity (color_dict : Py.dict string) :
  (forall k c,
      Py.getitem color_dict k = Ok c ->
      Py.getitem (invert color_dict) c = Ok k) ->
  injective color_dict.
Proof.
  intros RT k1 k2 c H1 H2.
  apply RT in H1. apply RT in H2. congruence.
Qed.

Lemma sample_palette_wf : Py.wf_dict Samples.sample_palette.
Proof.
  unfold Py.wf_dict. cbn.
  repeat constructor; cbn; intuition (try discriminate).
Qed.

Lemma sample_palette_injective : injective Samples.sample_palette.
Proof.
  intros k1 k2 c H1 H2.
  apply getitem_In in H1. apply getitem_In in H2.
  cbn in H1, H2.
  repeat match goal with
         | H : _ \/ _ |- _ => destruct H
         | H : False |- _ => destruct H
         | H : (_, _) = (_, _) |- _ => injection H as ? ?
         end; congruence.
Qed.

Lemma color_celltype_round_trip_witness :
  Py.wf_dict Samples.sample_palette
  /\ injective Samples.sample_palette
  /\ Py.getitem (invert Samples.sample_palette) "#008080" = Ok "PSM"
  /\ Py.getitem (invert Samples.sample_palette) "#ffffff" = Raise KeyError.
Proof.
  split; [exact sample_palette_wf|].
  split; [exact sample_palette_injective|].
  destruct (color_celltype_round_trip Samples.sample_palette
              sample_palette_wf sample_palette_injective)
    as [RT [MISS _]].
  split.
  - apply RT. reflexivity.
  - apply MISS. cbn. intuition (try discriminate).
Defined.

End PaletteFacts.

(* ================================================================== *)
(** * Properties of [corr/plot_corr.py]: the grid *)
(* ================================================================== *)

Module GridFacts.

Import PlotCorr Spec.

(** ** Maxima *)

Lemma gt_true (a b : Q) : gt a b = true -> (b < a)%Q.
Proof.
  unfold gt. destruct (a ?= b)%Q eqn:E; try discriminate.
  intros _. apply Qgt_alt. exact E.
Qed.

Lemma gt_false (a b : Q) : gt a b = false -> (a <= b)%Q.
Proof.
  unfold gt. intros H. apply Qle_alt. intros E. rewrite E in H.
  discriminate.
Qed.

Lemma fold_gt_spec (rest : list Q) (x : Q) :
  let m := fold_left (fun m y => if gt y m then y else m) rest x in
  (m = x \/ In m rest) /\ (x <= m)%Q /\ forall y, In y rest -> (y <= m)%Q.
Proof.
  revert x. induction rest as [|y rest IH]; intros x; cbn [fold_left].
  - split; [now left|]. split; [apply Qle_refl | contradiction].
  - destruct (gt y x) eqn:G.
    + destruct (IH y) as [Hin [Hle Hall]]. apply gt_true in G.
      split; [destruct Hin as [->|Hin]; right; [now left | now right]|].
      split; [apply Qle_trans with y; [now apply Qlt_le_weak | exact Hle]|].
      intros z [<-|Hz]; [exact Hle | auto].
    + destruct (IH x) as [Hin [Hle Hall]]. apply gt_false in G.
      split; [destruct Hin as [->|Hin]; [now left | right; now right]|].
      split; [exact Hle|].
      intros z [<-|Hz]; [apply Qle_trans with x; assumption | auto].
Qed.

Lemma np_max_spec (v : list Q) (m : Q) :
  np_max v = Ok m -> is_Qmax_of v m.
Proof.
  destruct v as [|x rest]; [discriminate|].
  intros H. injection H as <-.
  destruct (fold_gt_spec rest x) as [Hin [Hle Hall]]. split.
  - destruct Hin as [->|Hin]; [now left | now right].
  - intros y [<-|Hy]; [exact Hle | auto].
Qed.

Lemma np_max_total (v : list Q) : v <> [] -> exists m, np_max v = Ok m.
Proof. destruct v; [congruence|]. intros _. eexists. reflexivity. Qed.

Lemma running_max_start (m0 : Q) : running_max m0 [] m0.
Proof.
  split; [now left|]. split; [apply Qle_refl | contradiction].
Qed.

(** One update [if np.max(v) > cur: cur = np.max(v)] followed by
    further updates. *)
Lemma running_max_step (m0 mv m : Q) (v vs : list Q) :
  is_Qmax_of v mv ->
  running_max (if gt mv m0 then mv else m0) vs m ->
  running_max m0 (v ++ vs) m.
Proof.
  intros [Vin Vall] [Hin [Hle Hall]].
  destruct (gt mv m0) eqn:G.
  - apply gt_true in G. split; [|split].
    + right. apply in_or_app.
      destruct Hin as [->|Hin]; [now left | now right].
    + apply Qle_trans with mv; [now apply Qlt_le_weak | exact Hle].
    + intros x Hx. apply in_app_or in Hx as [Hx|Hx]; [|auto].
      apply Qle_trans with mv; auto.
  - apply gt_false in G. split; [|split].
    + destruct Hin as [->|Hin]; [now left|].
      right. apply in_or_app. now right.
    + exact Hle.
    + intros x Hx. apply in_app_or in Hx as [Hx|Hx]; [|auto].
      apply Qle_trans with mv; [auto|].
      apply Qle_trans with m0; assumption.
Qed.

(** ** The loop over the timepoints *)

Section Loop.

Variable color_dict : Py.dict string.
Variable gene : string.
Variable gene_dict : GeneDict.

Local Abbreviation body := (loop_body color_dict gene gene_dict).

Lemma loop_body_inv (st st' : LoopState) (index : nat)
      (sample_id : string) :
  body st (index, sample_id) = Ok st' ->
  exists expr_rna expr_atac colors corr names m_rna m_atac fig',
    sample_data gene gene_dict sample_id
    = Ok (expr_rna, expr_atac, colors)
    /\ corr_score expr_rna expr_atac = Ok corr
    /\ Py.comprehension (Py.getitem (invert color_dict)) colors
       = Ok names
    /\ np_max expr_rna = Ok m_rna
    /\ np_max expr_atac = Ok m_atac
    /\ add_trace (st_fig st) (mkScatter expr_atac expr_rna colors names)
                 (index / 3 + 1) (index mod 3 + 1) = Ok fig'
    /\ st' = mkLoopState fig' (st_corr_scores st ++ [corr])
               (if gt m_rna (st_rna_max st) then m_rna
                else st_rna_max st)
               (if gt m_atac (st_atac_max st) then m_atac
                else st_atac_max st).
Proof.
  unfold loop_body, sample_data.
  destruct (Py.getitem gene_dict gene) as [by_sample|]; [|discriminate].
  cbn [Py.bind].
  destruct (Py.getitem by_sample sample_id) as [[[rna atac] colors]|];
    [|discriminate].
  cbn [Py.bind].
  destruct (corr_score rna atac) as [corr|] eqn:C; [|discriminate].
  cbn [Py.bind].
  destruct (Py.comprehension _ colors) as [names|] eqn:N;
    [|discriminate].
  cbn [Py.bind].
  destruct (np_max rna) as [m_rna|] eqn:Mr; [|discriminate].
  cbn [Py.bind].
  destruct (np_max atac) as [m_atac|] eqn:Ma; [|discriminate].
  cbn [Py.bind].
  destruct (add_trace _ _ _ _) as [fig'|] eqn:A; [|discriminate].
  cbn [Py.bind]. intros H. injection H as <-.
  exists rna, atac, colors, corr, names, m_rna, m_atac, fig'.
  repeat (split; [first [reflexivity | assumption]|]). reflexivity.
Qed.

Lemma add_trace_inv (fig fig' : Figure) (t : Scatter) (row col : nat) :
  add_trace fig t row col = Ok fig' ->
  fig' = mkFigure (fig_rows fig) (fig_cols fig)
                  (traces fig ++ [(row, col, t)])
                  (annotations fig) (xaxes fig) (yaxes fig).
Proof.
  unfold add_trace. destruct (in_grid fig row col); [|discriminate].
  intros H. now injection H as <-.
Qed.

(** What a completed run of the loop leaves behind. *)
Lemma loop_invariant (items : list (nat * string)) (st st' : LoopState) :
  Py.for_each body items st = Ok st' ->
  fig_rows (st_fig st') = fig_rows (st_fig st)
  /\ fig_cols (st_fig st') = fig_cols (st_fig st)
  /\ annotations (st_fig st') = annotations (st_fig st)
  /\ xaxes (st_fig st') = xaxes (st_fig st)
  /\ yaxes (st_fig st') = yaxes (st_fig st)
  /\ (exists ts,
         traces (st_fig st') = (traces (st_fig st) ++ ts)%list
         /\ Forall2 (placed_trace gene gene_dict) items ts)
  /\ List.length (st_corr_scores st')
     = (List.length (st_corr_scores st) + List.length items)%nat
  /\ running_max (st_rna_max st)
                 (flat_map (vector_of expression gene gene_dict)
                           (map snd items))
                 (st_rna_max st')
  /\ running_max (st_atac_max st)
                 (flat_map (vector_of accessibility gene gene_dict)
                           (map snd items))
                 (st_atac_max st').
Proof.
  revert st. induction items as [|[index sample_id] items IH];
    intros st H.
  - cbn [Py.for_each] in H. injection H as <-.
    repeat (split; [reflexivity|]).
    split; [exists []; split; [now rewrite app_nil_r | constructor]|].
    split; [cbn; lia|].
    split; apply running_max_start.
  - cbn [Py.for_each] in H.
    destruct (body st (index, sample_id)) as [st1|] eqn:B;
      [|discriminate].
    cbn [Py.bind] in H.
    destruct (loop_body_inv st st1 index sample_id B)
      as [rna [atac [colors [corr [names [m_rna [m_atac [fig'
           [D [_ [_ [Mr [Ma [A E]]]]]]]]]]]]]].
    apply add_trace_inv in A.
    destruct (IH st1 H) as [R [C [An [X [Y [[ts [T F]] [L [Rm Am]]]]]]]].
    subst st1. cbn [st_fig st_corr_scores st_rna_max st_atac_max] in *.
    subst fig'. cbn [fig_rows fig_cols annotations xaxes yaxes traces]
      in *.
    repeat (split; [assumption|]).
    split.
    { exists ((index / 3 + 1, index mod 3 + 1,
               mkScatter atac rna colors names) :: ts)%nat.
      split; [rewrite T, <- app_assoc; reflexivity|].
      constructor; [|exact F].
      exists rna, atac, colors, names. split; [exact D | reflexivity]. }
    split; [rewrite L, length_app; cbn; lia|].
    cbn [map snd flat_map]. unfold vector_of at 1 3. rewrite D.
    split.
    + apply running_max_step with m_rna;
        [now apply np_max_spec | exact Rm].
    + apply running_max_step with m_atac;
        [now apply np_max_spec | exact Am].
Qed.


(** *** Success on well-formed data *)

Lemma corr_score_total (expr_rna expr_atac : list Q) :
  expr_rna <> [] ->
  List.length expr_rna = List.length expr_atac ->
  exists corr, corr_score expr_rna expr_atac = Ok corr.
Proof.
  intros Hne L.
  assert (Hne' : expr_atac <> []).
  { intros E. subst. destruct expr_rna; [congruence | discriminate]. }
  destruct (CorrelationFacts.guard_total expr_rna Hne) as [[Gx _]|[Gx _]].
  - exists NaN. apply CorrelationFacts.corr_score_guarded. now left.
  - destruct (CorrelationFacts.guard_total expr_atac Hne')
      as [[Gy _]|[Gy _]].
    + exists NaN. apply CorrelationFacts.corr_score_guarded. now right.
    + eexists.
      apply (CorrelationFacts.corr_score_computed _ _ Gx Gy L).
Qed.

Lemma comprehension_total {X Y : Type} (f : X -> result Y)
      (xs : list X) :
  (forall x, In x xs -> exists y, f x = Ok y) ->
  exists ys, Py.comprehension f xs = Ok ys.
Proof.
  induction xs as [|x xs IH]; intros H; [now exists []|].
  destruct (H x (or_introl eq_refl)) as [y Ey].
  destruct IH as [ys Eys]; [intros z Hz; apply H; now right|].
  exists (y :: ys). cbn [Py.comprehension]. now rewrite Ey, Eys.
Qed.

Lemma in_grid_index (fig : Figure) (index : nat) :
  fig_rows fig = 2%nat -> fig_cols fig = 3%nat -> (index < 6)%nat ->
  in_grid fig (index / 3 + 1) (index mod 3 + 1) = true.
Proof.
  intros R C L. unfold in_grid. rewrite R, C.
  do 6 (destruct index as [|index]; [reflexivity|]). lia.
Qed.

Lemma loop_body_succeeds (st : LoopState) (index : nat)
      (sample_id : string) :
  valid_input color_dict gene gene_dict ->
  In sample_id (Py.keys timepoints) -> (index < 6)%nat ->
  fig_rows (st_fig st) = 2%nat -> fig_cols (st_fig st) = 3%nat ->
  exists st',
    body st (index, sample_id) = Ok st'
    /\ fig_rows (st_fig st') = 2%nat /\ fig_cols (st_fig st') = 3%nat.
Proof.
  intros V Hin Hlt R C.
  destruct (V sample_id Hin) as [rna [atac [colors [D [Hne [L K]]]]]].
  destruct (corr_score_total rna atac Hne L) as [corr Ec].
  destruct (comprehension_total (Py.getitem (invert color_dict)) colors)
    as [names En].
  { intros c Hc.
    destruct (PaletteFacts.invert_present color_dict c (K c Hc))
      as [k [Ek _]]. now exists k. }
  destruct (np_max_total rna Hne) as [m_rna Er].
  destruct (np_max_total atac) as [m_atac Ea].
  { intros E. subst. destruct rna; [congruence | discriminate]. }
  unfold sample_data in D.
  destruct (Py.getitem gene_dict gene) as [by_sample|] eqn:G;
    [|discriminate].
  cbn [Py.bind] in D.
  eexists. unfold loop_body. rewrite G. cbn [Py.bind].
  rewrite D. cbn [Py.bind]. rewrite Ec. cbn [Py.bind].
  rewrite En. cbn [Py.bind]. rewrite Er, Ea. cbn [Py.bind].
  unfold add_trace. rewrite (in_grid_index _ index R C Hlt).
  cbn [Py.bind]. split; [reflexivity|]. split; assumption.
Qed.

Lemma loop_succeeds (items : list (nat * string)) (st : LoopState) :
  valid_input color_dict gene gene_dict ->
  (forall item, In item items ->
                In (snd item) (Py.keys timepoints)
                /\ (fst item < 6)%nat) ->
  fig_rows (st_fig st) = 2%nat -> fig_cols (st_fig st) = 3%nat ->
  exists st', Py.for_each body items st = Ok st'.
Proof.
  intros V. revert st.
  induction items as [|[index sample_id] items IH]; intros st H R C.
  - now exists st.
  - destruct (H (index, sample_id) (or_introl eq_refl)) as [Hin Hlt].
    destruct (loop_body_succeeds st index sample_id V Hin Hlt R C)
      as [st1 [B [R1 C1]]].
    destruct (IH st1) as [st' E]; auto.
    { intros item Hitem. apply H. now right. }
    exists st'. cbn [Py.for_each]. rewrite B. exact E.
Qed.

(** *** After the loop: titles and axes *)

Lemma titles_total (corr_scores : list score) :
  List.length corr_scores = 6%nat ->
  exists texts,
    Py.comprehension (title_text corr_scores) (seq 0 6) = Ok texts.
Proof.
  intros L. apply comprehension_total. intros i Hi.
  apply in_seq in Hi. unfold title_text.
  destruct (nth_error corr_scores i) as [c|] eqn:E.
  - do 6 (destruct i as [|i]; [eexists; reflexivity|]). lia.
  - apply nth_error_None in E. lia.
Qed.

Lemma plot_genes_after_loop (st' : LoopState) :
  Py.for_each body (Py.enumerate (Py.keys timepoints)) initial_state
  = Ok st' ->
  exists texts,
    Py.comprehension (title_text (st_corr_scores st')) (seq 0 6) = Ok texts
    /\ plot_genes color_dict gene gene_dict
       = Ok (mkFigure 2 3 (traces (st_fig st')) texts
                      (shared_axes "ATAC" (st_atac_max st'))
                      (shared_axes "RNA" (st_rna_max st'))).
Proof.
  intros E.
  destruct (loop_invariant _ _ _ E)
    as [R [C [An [X [Y [_ [L _]]]]]]].
  cbn in R, C, An, X, Y, L.
  destruct (titles_total (st_corr_scores st') L) as [texts T].
  exists texts. split; [exact T|]. unfold plot_genes.
  rewrite E. cbn [Py.bind].
  rewrite An. cbn [List.length]. rewrite T. cbn [Py.bind].
  rewrite L.
  destruct (st_fig st') as [rows cols trs anns xa ya].
  cbn [fig_rows fig_cols annotations xaxes yaxes traces] in *.
  subst rows cols xa ya. reflexivity.
Qed.

Lemma plot_genes_loop (fig : Figure) :
  plot_genes color_dict gene gene_dict = Ok fig ->
  exists st' texts,
    Py.for_each body (Py.enumerate (Py.keys timepoints)) initial_state
    = Ok st'
    /\ Py.comprehension (title_text (st_corr_scores st')) (seq 0 6)
       = Ok texts
    /\ fig = mkFigure 2 3 (traces (st_fig st')) texts
                      (shared_axes "ATAC" (st_atac_max st'))
                      (shared_axes "RNA" (st_rna_max st')).
Proof.
  intros H.
  destruct (Py.for_each body (Py.enumerate (Py.keys timepoints))
                        initial_state) as [st'|e] eqn:E.
  - destruct (plot_genes_after_loop st' E) as [texts [T P]].
    exists st', texts. split; [reflexivity|]. split; [exact T|]. congruence.
  - exfalso. unfold plot_genes in H. rewrite E in H. discriminate.
Qed.

Lemma plot_genes_total :
  valid_input color_dict gene gene_dict ->
  exists fig, plot_genes color_dict gene gene_dict = Ok fig.
Proof.
  intros V.
  destruct (loop_succeeds (Py.enumerate (Py.keys timepoints))
                          initial_state V) as [st' E];
    [|reflexivity|reflexivity|].
  - intros item Hitem. cbn in Hitem.
    repeat (destruct Hitem as [<-|Hitem];
            [split; [cbn; tauto | cbn; lia]|]).
    contradiction.
  - destruct (plot_genes_after_loop st' E) as [texts [_ P]].
    eexists. exact P.
Qed.

End Loop.

(** ** The claims about the grid *)

Lemma Forall2_nth_error {A B : Type} (R : A -> B -> Prop)
      (xs : list A) (ys : list B) (i : nat) (x : A) :
  Forall2 R xs ys -> nth_error xs i = Some x ->
  exists y, nth_error ys i = Some y /\ R x y.
Proof.
  intros F. revert i. induction F as [|a b xs ys Rab F IH]; intros i H.
  - destruct i; discriminate.
  - destruct i as [|i]; cbn in *.
    + injection H as <-. now exists b.
    + now apply IH.
Qed.

Lemma enumerate_timepoints (i : nat) (sample_id : string) :
  nth_error (Py.keys timepoints) i = Some sample_id ->
  nth_error (Py.enumerate (Py.keys timepoints)) i = Some (i, sample_id).
Proof.
  do 6 (destruct i as [|i];
        [cbn; intros H; injection H as <-; reflexivity|]).
  destruct i; discriminate.
Qed.

(** [C6] Grid placement.  A run on well-formed data returns a figure,
    and in every figure [plot_genes] returns there are six scatter
    traces, the one of list index [i] being the data of the [i]-th
    timepoint placed at row [i // 3 + 1] and column [i % 3 + 1]; index
    0 is in cell (1,1), index 3 in cell (2,1), index 5 in cell (2,3). *)
Theorem grid_placement (color_dict : Py.dict string) (gene : string)
        (gene_dict : GeneDict) :
  (valid_input color_dict gene gene_dict ->
   exists fig, plot_genes color_dict gene gene_dict = Ok fig)
  /\ (forall fig,
         plot_genes color_dict gene gene_dict = Ok fig ->
         List.length (traces fig) = 6%nat
         /\ (forall i sample_id,
                nth_error (Py.keys timepoints) i = Some sample_id ->
                exists scatter,
                  nth_error (traces fig) i
                  = Some ((i / 3 + 1)%nat, (i mod 3 + 1)%nat, scatter)
                  /\ placed_trace gene gene_dict (i, sample_id)
                       ((i / 3 + 1)%nat, (i mod 3 + 1)%nat, scatter))
         /\ (exists s0 s3 s5,
                nth_error (traces fig) 0 = Some (1%nat, 1%nat, s0)
                /\ nth_error (traces fig) 3 = Some (2%nat, 1%nat, s3)
                /\ nth_error (traces fig) 5 = Some (2%nat, 3%nat, s5))).
Proof.
  split; [apply plot_genes_total|].
  intros fig H.
  destruct (plot_genes_loop _ _ _ _ H) as [st' [texts [E [_ ->]]]].
  destruct (loop_invariant _ _ _ _ _ _ E)
    as [_ [_ [_ [_ [_ [[ts [T F]] _]]]]]].
  cbn [traces] in *. cbn in T. rewrite T.
  assert (P : forall i sample_id,
             nth_error (Py.keys timepoints) i = Some sample_id ->
             exists scatter,
               nth_error ts i
               = Some ((i / 3 + 1)%nat, (i mod 3 + 1)%nat, scatter)
               /\ placed_trace gene gene_dict (i, sample_id)
                    ((i / 3 + 1)%nat, (i mod 3 + 1)%nat, scatter)).
  { intros i sample_id Hi. apply enumerate_timepoints in Hi.
    destruct (Forall2_nth_error _ _ _ i _ F Hi) as [t [Et Pt]].
    pose proof Pt as [rna [atac [colors [names [D Eq]]]]].
    cbn [fst snd] in Eq. subst t. eexists. split; [exact Et | exact Pt]. }
  split; [|split].
  - apply Forall2_length in F. rewrite <- F. reflexivity.
  - exact P.
  - destruct (P 0%nat "TDR126" eq_refl) as [s0 [E0 _]].
    destruct (P 3%nat "TDR118" eq_refl) as [s3 [E3 _]].
    destruct (P 5%nat "TDR124" eq_refl) as [s5 [E5 _]].
    exists s0, s3, s5. auto.
Qed.

Lemma get_shared_axis (title : string) (upper : Q) (row col : nat) :
  grid_cell row col ->
  get_axis (shared_axes title upper) (row, col)
  = Some (mkAxis title (0, upper)).
Proof.
  intros [[R1 R2] [C1 C2]].
  assert (Hr : row = 1%nat \/ row = 2%nat) by lia.
  assert (Hc : col = 1%nat \/ col = 2%nat \/ col = 3%nat) by lia.
  destruct Hr as [-> | ->]; destruct Hc as [-> | [-> | ->]]; reflexivity.
Qed.

Lemma running_max_meets_max (vs : list Q) (m0 m g : Q) :
  running_max m0 vs m -> is_Qmax_of vs g -> (m0 <= g)%Q -> (m == g)%Q.
Proof.
  intros [Hin [Hle Hall]] [Gin Gall] H0.
  apply Qle_antisym.
  - destruct Hin as [->|Hin]; [exact H0 | auto].
  - auto.
Qed.

(** [C3], amended.  A run on well-formed data returns a figure, and in
    every figure [plot_genes] returns all six subplots carry the same
    x-axis range [[0, M_atac]] and the same y-axis range [[0, M_rna]],
    where [M_atac] ([M_rna]) is the largest value among [0] and all
    accessibility (expression) values of the gene's six timepoints.
    Whenever the global maximum of the data is not negative, the bound
    is that global maximum, whichever subplot it comes from. *)
Theorem shared_axes_clamped_global_max (color_dict : Py.dict string)
        (gene : string) (gene_dict : GeneDict) :
  (valid_input color_dict gene gene_dict ->
   exists fig, plot_genes color_dict gene gene_dict = Ok fig)
  /\ (forall fig,
         plot_genes color_dict gene gene_dict = Ok fig ->
         exists m_atac m_rna,
           is_Qmax_with_zero (gene_values accessibility gene gene_dict)
                             m_atac
           /\ is_Qmax_with_zero (gene_values expression gene gene_dict)
                                m_rna
           /\ (forall row col,
                  grid_cell row col ->
                  get_axis (xaxes fig) (row, col)
                  = Some (mkAxis "ATAC" (0, m_atac))
                  /\ get_axis (yaxes fig) (row, col)
                     = Some (mkAxis "RNA" (0, m_rna)))
           /\ (forall g,
                  is_Qmax_of (gene_values accessibility gene gene_dict) g ->
                  (0 <= g)%Q -> (m_atac == g)%Q)
           /\ (forall g,
                  is_Qmax_of (gene_values expression gene gene_dict) g ->
                  (0 <= g)%Q -> (m_rna == g)%Q)).
Proof.
  split; [apply plot_genes_total|].
  intros fig H.
  destruct (plot_genes_loop _ _ _ _ H) as [st' [texts [E [_ ->]]]].
  destruct (loop_invariant _ _ _ _ _ _ E)
    as [_ [_ [_ [_ [_ [_ [_ [Rm Am]]]]]]]].
  exists (st_atac_max st'), (st_rna_max st').
  cbn [xaxes yaxes].
  split; [exact Am|]. split; [exact Rm|].
  split.
  - intros row col Hc. split; now apply get_shared_axis.
  - split; intros g Hg H0;
      [apply (running_max_meets_max _ _ _ _ Am Hg H0)
      | apply (running_max_meets_max _ _ _ _ Rm Hg H0)].
Qed.

Lemma comprehension_Forall2 {X Y : Type} (f : X -> result Y)
      (xs : list X) (ys : list Y) :
  Py.comprehension f xs = Ok ys -> Forall2 (fun x y => f x = Ok y) xs ys.
Proof.
  revert ys. induction xs as [|x xs IH]; intros ys H; cbn in H.
  - injection H as <-. constructor.
  - destruct (f x) as [y|] eqn:Ex; [|discriminate]. cbn in H.
    destruct (Py.comprehension f xs) as [ys'|]; [|discriminate].
    cbn in H. injection H as <-. constructor; auto.
Qed.


(** ** Concrete runs *)

Ltac each_timepoint H :=
  cbn in H;
  repeat (destruct H as [<-|H];
          [do 3 eexists;
           split; [reflexivity|];
           split; [discriminate|];
           split; [reflexivity|];
           cbn; intros c Hc; intuition (subst; auto)|]);
  contradiction.

Lemma flat_expression_valid :
  valid_input Samples.sample_palette "slc4a1a" Samples.flat_expression.
Proof. intros sample_id H. each_timepoint H. Qed.

Lemma negative_values_valid :
  valid_input Samples.sample_palette "slc4a1a" Samples.negative_values.
Proof. intros sample_id H. each_timepoint H. Qed.

Lemma grid_placement_witness :
  valid_input Samples.sample_palette "slc4a1a" Samples.flat_expression
  /\ exists fig s3,
       plot_genes Samples.sample_palette "slc4a1a" Samples.flat_expression
       = Ok fig
       /\ nth_error (traces fig) 3 = Some (2%nat, 1%nat, s3)
       /\ sc_x s3 = [2; 2]%Q.
Proof.
  split; [exact flat_expression_valid|].
  destruct (grid_placement Samples.sample_palette "slc4a1a"
                           Samples.flat_expression) as [T P].
  destruct (T flat_expression_valid) as [fig E].
  destruct (P fig E) as [_ [PL _]].
  destruct (PL 3%nat "TDR118" eq_refl) as [s3 [E3 [rna [atac [colors
             [names [D Eq]]]]]]].
  exists fig, s3. split; [exact E|]. split; [exact E3|].
  cbn in D. injection D as <- <- <-.
  injection Eq as ->. reflexivity.
Defined.

Lemma shared_axes_clamped_global_max_witness :
  valid_input Samples.sample_palette "slc4a1a" Samples.flat_expression
  /\ exists fig,
       plot_genes Samples.sample_palette "slc4a1a" Samples.flat_expression
       = Ok fig
       /\ exists m_atac m_rna,
            (m_atac == 9)%Q /\ (m_rna == 6)%Q
            /\ get_axis (xaxes fig) (2%nat, 3%nat)
               = Some (mkAxis "ATAC" (0, m_atac))
            /\ get_axis (yaxes fig) (1%nat, 1%nat)
               = Some (mkAxis "RNA" (0, m_rna)).
Proof.
  split; [exact flat_expression_valid|].
  destruct (shared_axes_clamped_global_max Samples.sample_palette
              "slc4a1a" Samples.flat_expression) as [T P].
  destruct (T flat_expression_valid) as [fig E].
  destruct (P fig E) as [m_atac [m_rna [_ [_ [AX [GA GR]]]]]].
  exists fig. split; [exact E|]. exists m_atac, m_rna.
  split; [|split; [|split]].
  - apply GA; [|discriminate]. split.
    + cbn. tauto.
    + intros v Hv. cbn in Hv.
      repeat (destruct Hv as [<-|Hv]; [discriminate|]). contradiction.
  - apply GR; [|discriminate]. split.
    + cbn. tauto.
    + intros v Hv. cbn in Hv.
      repeat (destruct Hv as [<-|Hv]; [discriminate|]). contradiction.
  - apply AX. unfold grid_cell. lia.
  - apply AX. unfold grid_cell. lia.
Defined.

(** [C3] as worded fails: on a gene all of whose values are negative
    the code leaves both upper bounds at their initial [0], which is
    not the global maximum ([-1] for accessibility, [-2] for
    expression). *)
Lemma shared_axis_claim_fails_on_negative_values : ~ shared_axis_claim.
Proof.
  intros Claim.
  eassert (E : plot_genes Samples.sample_palette "slc4a1a"
                          Samples.negative_values = Ok _)
    by (vm_compute; reflexivity).
  assert (Ma : is_Qmax_of
                 (gene_values accessibility "slc4a1a"
                              Samples.negative_values) (-1)).
  { split.
    - cbn. tauto.
    - intros v Hv. cbn in Hv.
      repeat (destruct Hv as [<-|Hv]; [discriminate|]). contradiction. }
  assert (Mr : is_Qmax_of
                 (gene_values expression "slc4a1a"
                              Samples.negative_values) (-2)).
  { split.
    - cbn. tauto.
    - intros v Hv. cbn in Hv.
      repeat (destruct Hv as [<-|Hv]; [discriminate|]). contradiction. }
  destruct (Claim _ _ _ _ _ _ E Ma Mr 1%nat 1%nat)
    as [ax [ay [Ex [_ [[_ Hup] _]]]]]; [unfold grid_cell; lia|].
  cbn in Ex. injection Ex as <-. cbn in Hup. discriminate Hup.
Qed.

End GridFacts.


(* ================================================================== *)
(** * Further properties of [ccan/plot_both.py]: the layers *)
(* ================================================================== *)

Module TrackFacts.

Import PlotBoth Spec Layers.
Local Open Scope Z_scope.

(** ** Dictionaries with the same keys *)

Lemma getitem_known {V : Type} (d : Py.dict V) (k : string) :
  In k (Py.keys d) -> exists v, Py.getitem d k = Ok v.
Proof.
  induction d as [|[k0 v0] d IH]; cbn [Py.keys map fst Py.getitem];
    intros H; [contradiction|].
  destruct (String.eqb_spec k0 k) as [E|N]; [now exists v0|].
  destruct H as [H|H]; [congruence | auto].
Qed.

Lemma getitem_unknown {V : Type} (d : Py.dict V) (k : string) :
  ~ In k (Py.keys d) -> Py.getitem d k = Raise KeyError.
Proof.
  induction d as [|[k0 v0] d IH]; cbn [Py.keys map fst Py.getitem];
    intros H; [reflexivity|].
  destruct (String.eqb_spec k0 k) as [E|N].
  - exfalso. apply H. now left.
  - apply IH. intros Hin. apply H. now right.
Qed.

Lemma known_sample_dec (sample_id : string) :
  {known_sample sample_id} + {~ known_sample sample_id}.
Proof. apply in_dec. exact string_dec. Qed.

(** ** Folded layers *)

Lemma fold_draw_exon (exons : list (Z * Z)) (fig : Figure) :
  fold_left draw_exon exons fig
  = mkFigure (traces fig ++ map exon_trace exons)
             (shapes fig ++ map exon_rect exons)
             (annotations fig) (xaxis fig) (yaxis fig).
Proof.
  revert fig. induction exons as [|[a b] exons IH]; intros fig.
  - cbn [fold_left map]. rewrite !app_nil_r. now destruct fig.
  - cbn [fold_left]. rewrite IH. cbn. rewrite <- !app_assoc. reflexivity.
Qed.

Lemma fold_tick_traces (ticks : list Z) (fig : Figure) :
  fold_left (fun f tick => add_trace f (tick_trace tick)) ticks fig
  = mkFigure (traces fig ++ map tick_trace ticks) (shapes fig)
             (annotations fig) (xaxis fig) (yaxis fig).
Proof.
  revert fig. induction ticks as [|t ticks IH]; intros fig.
  - cbn [fold_left map]. rewrite app_nil_r. now destruct fig.
  - cbn [fold_left]. rewrite IH. cbn. rewrite <- app_assoc. reflexivity.
Qed.

(** ** [plot_gene] *)

Lemma plot_gene_layers (fig : Figure) (r : GeneRow) (rest : list GeneRow)
      (start end_ : Z) :
  let gene_data := r :: rest in
  let gs := col_min (map g_start gene_data) in
  let ge := col_max (map g_end gene_data) in
  plot_gene fig gene_data start end_
  = Ok (mkFigure
          (traces fig ++ gene_line gs ge
             :: map exon_trace (coordinates gene_data))
          (shapes fig ++ map exon_rect (coordinates gene_data))
          (annotations fig
             ++ [if String.eqb (g_strand r) "+"
                 then mkAnnotation ge (7 # 100) gs (7 # 100) "lightgray"
                 else mkAnnotation gs (7 # 100) ge (7 # 100) "lightgray"])
          (xaxis fig) (yaxis fig)).
Proof.
  intros gene_data gs ge. unfold plot_gene. cbv zeta.
  rewrite fold_draw_exon.
  change (Py.first (map g_strand gene_data)) with (Ok (g_strand r)).
  cbn [Py.bind]. fold gs. fold ge.
  unfold add_annotation, add_trace, coordinates.
  cbn [traces shapes annotations xaxis yaxis].
  rewrite <- app_assoc.
  destruct (String.eqb (g_strand r) "+"); reflexivity.
Qed.

(** ** [plot_atac] *)

Lemma draw_peak_known (fig : Figure) (row : AtacRow) :
  known_sample (a_sample row) ->
  exists drawn,
    drawn_peak row drawn
    /\ draw_peak fig row
       = Ok (mkFigure (traces fig ++ [snd drawn]) (shapes fig ++ [fst drawn])
                      (annotations fig) (xaxis fig) (yaxis fig)).
Proof.
  intros K.
  destruct (getitem_known heights (a_sample row) K) as [h Eh].
  destruct (getitem_known colors (a_sample row) K) as [c Ec].
  destruct (getitem_known timepoints (a_sample row) K) as [l El].
  exists (peak_rect h c row, peak_trace h l row). split.
  - exists h, c, l. auto.
  - unfold draw_peak. rewrite Eh, Ec, El. reflexivity.
Qed.

Lemma draw_peak_unknown (fig : Figure) (row : AtacRow) :
  ~ known_sample (a_sample row) -> draw_peak fig row = Raise KeyError.
Proof.
  intros K. unfold draw_peak.
  rewrite (getitem_unknown heights (a_sample row) K). reflexivity.
Qed.

Lemma plot_atac_known (atac_data : list AtacRow) (fig : Figure) :
  (forall row, In row atac_data -> known_sample (a_sample row)) ->
  exists drawn,
    Forall2 drawn_peak atac_data drawn
    /\ plot_atac fig atac_data
       = Ok (mkFigure (traces fig ++ map snd drawn)
                      (shapes fig ++ map fst drawn)
                      (annotations fig) (xaxis fig) (yaxis fig)).
Proof.
  revert fig. induction atac_data as [|row rows IH]; intros fig K.
  - exists []. split; [constructor|]. cbn. rewrite !app_nil_r.
    now destruct fig.
  - destruct (draw_peak_known fig row (K row (or_introl eq_refl)))
      as [d [Hd Ed]].
    destruct (IH (mkFigure (traces fig ++ [snd d]) (shapes fig ++ [fst d])
                           (annotations fig) (xaxis fig) (yaxis fig)))
      as [ds [Hds Eds]]; [intros r Hr; apply K; now right|].
    exists (d :: ds). split; [now constructor|].
    unfold plot_atac in *. cbn [Py.for_each]. rewrite Ed. cbn [Py.bind].
    rewrite Eds. cbn. rewrite <- !app_assoc. reflexivity.
Qed.

Lemma plot_atac_unknown (atac_data : list AtacRow) (fig : Figure) :
  (exists row, In row atac_data /\ ~ known_sample (a_sample row)) ->
  plot_atac fig atac_data = Raise KeyError.
Proof.
  revert fig. induction atac_data as [|row rows IH]; intros fig [bad [Hin Hb]];
    [contradiction|].
  unfold plot_atac in *. cbn [Py.for_each].
  destruct (known_sample_dec (a_sample row)) as [K|K].
  - destruct (draw_peak_known fig row K) as [d [_ Ed]].
    rewrite Ed. cbn [Py.bind]. apply IH.
    destruct Hin as [E|Hin]; [subst; contradiction|]. now exists bad.
  - rewrite (draw_peak_unknown fig row K). reflexivity.
Qed.

(** ** [plot_legend] *)

Lemma plot_legend_layers (fig : Figure) :
  plot_legend fig
  = Ok (mkFigure (traces fig ++ legend_traces) (shapes fig)
                 (annotations fig) (xaxis fig) (yaxis fig)).
Proof.
  destruct fig as [trs shp ann xa ya]. unfold plot_legend. cbn.
  unfold add_trace. cbn [traces shapes annotations xaxis yaxis].
  repeat rewrite <- app_assoc. reflexivity.
Qed.

(** ** [combined_plot] *)

Lemma display_range_ok (r : GeneRow) (rest : list GeneRow)
      (a : AtacRow) (peaks : list AtacRow) :
  exists s e,
    display_range (r :: rest) (a :: peaks) = Ok (s, e)
    /\ is_min_of (map g_start (r :: rest) ++ map a_start (a :: peaks)) s
    /\ is_max_of (map g_end (r :: rest) ++ map a_end (a :: peaks)) e.
Proof.
  destruct (PlotBothFacts.col_min_spec (map g_start (r :: rest)))
    as [gs [Egs Hgs]]; [discriminate|].
  destruct (PlotBothFacts.col_min_spec (map a_start (a :: peaks)))
    as [ps [Eps Hps]]; [discriminate|].
  destruct (PlotBothFacts.col_max_spec (map g_end (r :: rest)))
    as [ge [Ege Hge]]; [discriminate|].
  destruct (PlotBothFacts.col_max_spec (map a_end (a :: peaks)))
    as [pe [Epe Hpe]]; [discriminate|].
  exists (Z.min gs ps), (Z.max ge pe). split; [|split].
  - unfold display_range. rewrite Egs, Eps, Ege, Epe.
    rewrite PyFacts.min2_some, PyFacts.max2_some. reflexivity.
  - now apply PlotBothFacts.is_min_of_app.
  - now apply PlotBothFacts.is_max_of_app.
Qed.

(** The whole figure of a successful run, layer by layer. *)
Lemma combined_plot_layers (gene_data : list GeneRow)
      (atac_data : list AtacRow) (fig : Figure) :
  combined_plot_on gene_data atac_data = Ok fig ->
  exists r rest s e drawn,
    gene_data = r :: rest
    /\ display_range gene_data atac_data = Ok (s, e)
    /\ is_min_of (map g_start gene_data ++ map a_start atac_data) s
    /\ is_max_of (map g_end gene_data ++ map a_end atac_data) e
    /\ Forall2 drawn_peak atac_data drawn
    /\ traces fig
       = ((baseline s e :: map tick_trace (chromosome_ticks s e))
            ++ (gene_line (col_min (map g_start gene_data))
                          (col_max (map g_end gene_data))
                  :: map exon_trace (coordinates gene_data))
            ++ map snd drawn ++ legend_traces)%list
    /\ shapes fig
       = (map exon_rect (coordinates gene_data) ++ map fst drawn)%list
    /\ annotations fig
       = [if String.eqb (g_strand r) "+"
          then mkAnnotation (col_max (map g_end gene_data)) (7 # 100)
                            (col_min (map g_start gene_data)) (7 # 100)
                            "lightgray"
          else mkAnnotation (col_min (map g_start gene_data)) (7 # 100)
                            (col_max (map g_end gene_data)) (7 # 100)
                            "lightgray"]
    /\ xaxis fig
       = Some (mkXAxis (s - 1, e + 1) "Genomic Coordinate (kbp)"
                       (chromosome_ticks s e)
                       (map tick_label (chromosome_ticks s e)) true)
    /\ yaxis fig = mkYAxis (Some (-1, 1)) false true.
Proof.
  intros H.
  destruct gene_data as [|r rest].
  { unfold combined_plot_on in H.
    rewrite PlotBothFacts.display_range_empty in H by now left.
    discriminate. }
  destruct atac_data as [|a peaks].
  { unfold combined_plot_on in H.
    rewrite PlotBothFacts.display_range_empty in H by now right.
    discriminate. }
  destruct (display_range_ok r rest a peaks) as [s [e [D [Hs He]]]].
  unfold combined_plot_on in H. rewrite D in H. cbn [Py.bind] in H.
  rewrite plot_gene_layers in H. cbn [Py.bind] in H.
  assert (K : forall row, In row (a :: peaks) -> known_sample (a_sample row)).
  { intros row Hrow.
    destruct (known_sample_dec (a_sample row)) as [K|K]; [exact K|].
    exfalso. rewrite plot_atac_unknown in H; [discriminate|].
    now exists row. }
  match type of H with
  | context [plot_atac ?f _] =>
      destruct (plot_atac_known (a :: peaks) f K) as [drawn [F E]]
  end.
  rewrite E in H. cbn [Py.bind] in H. rewrite plot_legend_layers in H.
  cbn [Py.bind] in H.
  exists r, rest, s, e, drawn.
  split; [reflexivity|]. split; [exact D|]. split; [exact Hs|].
  split; [exact He|]. split; [exact F|].
  unfold plot_genomic_region in H. cbv zeta in H.
  rewrite fold_tick_traces in H.
  cbn [traces shapes annotations xaxis yaxis set_xaxis set_yaxis add_trace
       empty_figure ya_visible ya_autorange xa_range xa_title xa_tickvals
       xa_ticktext] in H.
  injection H as <-.
  cbn [traces shapes annotations xaxis yaxis].
  repeat split; try reflexivity.
  cbn [app]. rewrite <- !app_assoc. reflexivity.
Qed.

(** ** What a caller of [combined_plot] can rely on *)

Lemma Forall2_In_r {A B : Type} (R : A -> B -> Prop) (xs : list A)
      (ys : list B) (y : B) :
  Forall2 R xs ys -> In y ys -> exists x, In x xs /\ R x y.
Proof.
  induction 1 as [|a b xs ys Rab F IH]; intros Hin; [contradiction|].
  destruct Hin as [<-|Hin].
  - exists a. split; [now left | exact Rab].
  - destruct (IH Hin) as [x [Hx Rx]]. exists x. split; [now right | exact Rx].
Qed.

Lemma filter_map_none {A B : Type} (f : B -> bool) (g : A -> B)
      (l : list A) :
  (forall x, In x l -> f (g x) = false) -> filter f (map g l) = [].
Proof.
  induction l as [|x l IH]; intros H; [reflexivity|].
  cbn [map filter]. rewrite (H x (or_introl eq_refl)).
  apply IH. intros y Hy. apply H. now right.
Qed.

(** The outcome of [combined_plot] is decided by the two tables alone:
    [TypeError] when the gene has no exon row or no peak row, [KeyError]
    when it has both but some peak row names a sample outside the six
    timepoints, and a figure otherwise. *)
Theorem combined_plot_outcome (gene_data : list GeneRow)
        (atac_data : list AtacRow) :
  (gene_data = [] \/ atac_data = [] ->
   combined_plot_on gene_data atac_data = Raise TypeError)
  /\ (gene_data <> [] -> atac_data <> [] ->
      (exists row, In row atac_data /\ ~ known_sample (a_sample row)) ->
      combined_plot_on gene_data atac_data = Raise KeyError)
  /\ (gene_data <> [] -> atac_data <> [] ->
      (forall row, In row atac_data -> known_sample (a_sample row)) ->
      exists fig, combined_plot_on gene_data atac_data = Ok fig).
Proof.
  split; [|split].
  - intros H. unfold combined_plot_on.
    rewrite PlotBothFacts.display_range_empty by exact H. reflexivity.
  - intros Hg Ha Hbad.
    destruct gene_data as [|r rest]; [congruence|].
    destruct atac_data as [|a peaks]; [congruence|].
    destruct (display_range_ok r rest a peaks) as [s [e [D _]]].
    unfold combined_plot_on. rewrite D. cbn [Py.bind].
    rewrite plot_gene_layers. cbn [Py.bind].
    rewrite plot_atac_unknown by exact Hbad. reflexivity.
  - intros Hg Ha K.
    destruct gene_data as [|r rest]; [congruence|].
    destruct atac_data as [|a peaks]; [congruence|].
    destruct (display_range_ok r rest a peaks) as [s [e [D _]]].
    unfold combined_plot_on. rewrite D. cbn [Py.bind].
    rewrite plot_gene_layers. cbn [Py.bind].
    match goal with
    | |- context [plot_atac ?f _] =>
        destruct (plot_atac_known (a :: peaks) f K) as [drawn [_ E]]
    end.
    rewrite E. cbn [Py.bind]. rewrite plot_legend_layers. cbn [Py.bind].
    eexists. reflexivity.
Qed.

Lemma combined_plot_outcome_witness :
  (exists row, In row [mkAtacRow "slc4a1a" "TDR999" 150 350]
               /\ ~ known_sample (a_sample row))
  /\ combined_plot_on Samples.slc4a1a_exons
                      [mkAtacRow "slc4a1a" "TDR999" 150 350]
     = Raise KeyError.
Proof.
  assert (B : exists row, In row [mkAtacRow "slc4a1a" "TDR999" 150 350]
                          /\ ~ known_sample (a_sample row)).
  { eexists. split; [now left|]. cbn. intuition (try discriminate). }
  split; [exact B|].
  apply (combined_plot_outcome Samples.slc4a1a_exons
           [mkAtacRow "slc4a1a" "TDR999" 150 350]);
    [discriminate | discriminate | exact B].
Defined.

(** The legend of every figure [combined_plot] returns consists of the
    same eight entries in the same order: transcription direction,
    exon, then the six timepoints; no tick, exon or peak trace shows in
    it. *)
Theorem legend_is_fixed (gene_data : list GeneRow)
        (atac_data : list AtacRow) (fig : Figure) :
  combined_plot_on gene_data atac_data = Ok fig ->
  legend_names fig
  = [Some "Transcription direction"; Some "Exon";
     Some "ATAC peak - 10 hours post fertilization";
     Some "ATAC peak - 12 hours post fertilization";
     Some "ATAC peak - 14 hours post fertilization";
     Some "ATAC peak - 16 hours post fertilization";
     Some "ATAC peak - 19 hours post fertilization";
     Some "ATAC peak - 24 hours post fertilization"]%string.
Proof.
  intros H.
  destruct (combined_plot_layers _ _ _ H)
    as [r [rest [s [e [drawn [_ [_ [_ [_ [F [T _]]]]]]]]]]].
  unfold legend_names. rewrite T. rewrite !filter_app.
  cbn [filter baseline gene_line sc_showlegend].
  rewrite (filter_map_none sc_showlegend tick_trace) by reflexivity.
  rewrite (filter_map_none sc_showlegend exon_trace) by reflexivity.
  assert (P : filter sc_showlegend (map snd drawn) = []).
  { apply filter_map_none. intros d Hd.
    destruct (Forall2_In_r _ _ _ d F Hd) as [row [_ [h [c [l [_ [_ [_ ->]]]]]]]].
    reflexivity. }
  rewrite P. reflexivity.
Qed.

Lemma legend_is_fixed_witness :
  exists fig,
    combined_plot_on Samples.slc4a1a_exons Samples.slc4a1a_peaks = Ok fig
    /\ List.length (legend_names fig) = 8%nat.
Proof.
  eassert (E : combined_plot_on Samples.slc4a1a_exons Samples.slc4a1a_peaks
               = Ok _) by (vm_compute; reflexivity).
  eexists. split; [exact E|].
  rewrite (legend_is_fixed _ _ _ E). reflexivity.
Defined.

(** In every figure [combined_plot] returns, the rectangles are the
    exons in table order followed by the peaks in table order, each
    with the exact coordinates of its row, and every rectangle lies
    inside the resolved display range; there is exactly one arrow. *)
Theorem rectangles_follow_the_tables (gene_data : list GeneRow)
        (atac_data : list AtacRow) (fig : Figure) :
  combined_plot_on gene_data atac_data = Ok fig ->
  map span (shapes fig)
  = (coordinates gene_data
       ++ map (fun row => (a_start row, a_end row)) atac_data)%list
  /\ List.length (annotations fig) = 1%nat
  /\ exists s e,
       display_range gene_data atac_data = Ok (s, e)
       /\ forall rect, In rect (shapes fig) ->
                       s <= r_x0 rect /\ r_x1 rect <= e.
Proof.
  intros H.
  destruct (combined_plot_layers _ _ _ H)
    as [r [rest [s [e [drawn [_ [D [Hs [He [F [_ [S [A _]]]]]]]]]]]]].
  assert (P : map span (map fst drawn)
              = map (fun row => (a_start row, a_end row)) atac_data).
  { clear - F. induction F as [|row d rows ds Hd F IH]; [reflexivity|].
    cbn [map]. rewrite IH.
    destruct Hd as [h [c [l [_ [_ [_ ->]]]]]]. reflexivity. }
  split; [|split].
  - rewrite S, map_app, P. f_equal.
    unfold coordinates. rewrite !map_map. reflexivity.
  - rewrite A. reflexivity.
  - exists s, e. split; [exact D|].
    intros rect Hin. rewrite S in Hin.
    destruct Hs as [_ Ls]. destruct He as [_ Le].
    apply in_app_or in Hin as [Hin|Hin].
    + unfold coordinates in Hin. rewrite map_map in Hin.
      apply in_map_iff in Hin as [row [<- Hrow]]. cbn [exon_rect r_x0 r_x1 fst snd].
      split.
      * apply Ls. apply in_or_app. left. now apply in_map.
      * apply Le. apply in_or_app. left. now apply in_map.
    + apply in_map_iff in Hin as [d [<- Hd]].
      destruct (Forall2_In_r _ _ _ d F Hd)
        as [row [Hrow [h [c [l [_ [_ [_ ->]]]]]]]].
      cbn [fst peak_rect r_x0 r_x1]. split.
      * apply Ls. apply in_or_app. right. now apply in_map.
      * apply Le. apply in_or_app. right. now apply in_map.
Qed.

Lemma rectangles_follow_the_tables_witness :
  exists fig,
    combined_plot_on Samples.slc4a1a_exons Samples.slc4a1a_peaks = Ok fig
    /\ map span (shapes fig) = [(100, 200); (300, 400); (150, 350)].
Proof.
  eassert (E : combined_plot_on Samples.slc4a1a_exons Samples.slc4a1a_peaks
               = Ok _) by (vm_compute; reflexivity).
  eexists. split; [exact E|].
  apply (rectangles_follow_the_tables _ _ _ E).
Defined.

(** In every figure [combined_plot] returns, the x-axis carries the
    ticks of the resolved display range with one label per tick and
    the range widened by one base pair on each side, and the y-axis is
    hidden with the fixed range [[-1, 1]]: the layers drawn after
    [plot_genomic_region] leave the axis settings alone. *)
Theorem axes_survive_the_layers (gene_data : list GeneRow)
        (atac_data : list AtacRow) (fig : Figure) :
  combined_plot_on gene_data atac_data = Ok fig ->
  exists s e x,
    display_range gene_data atac_data = Ok (s, e)
    /\ xaxis fig = Some x
    /\ xa_range x = (s - 1, e + 1)
    /\ xa_tickvals x = chromosome_ticks s e
    /\ xa_ticktext x = map tick_label (chromosome_ticks s e)
    /\ List.length (xa_ticktext x) = List.length (xa_tickvals x)
    /\ ya_range (yaxis fig) = Some (-1, 1)
    /\ ya_visible (yaxis fig) = false.
Proof.
  intros H.
  destruct (combined_plot_layers _ _ _ H)
    as [r [rest [s [e [drawn [_ [D [_ [_ [_ [_ [_ [_ [X Y]]]]]]]]]]]]]].
  exists s, e. eexists. split; [exact D|]. split; [exact X|].
  rewrite Y. cbn. rewrite length_map. repeat split; reflexivity.
Qed.

Lemma axes_survive_the_layers_witness :
  exists fig x,
    combined_plot_on Samples.slc4a1a_exons Samples.slc4a1a_peaks = Ok fig
    /\ xaxis fig = Some x
    /\ xa_range x = (99, 401).
Proof.
  eassert (E : combined_plot_on Samples.slc4a1a_exons Samples.slc4a1a_peaks
               = Ok _) by (vm_compute; reflexivity).
  destruct (axes_survive_the_layers _ _ _ E)
    as [s [e [x [D [X [R _]]]]]].
  eexists. exists x. split; [exact E|]. split; [exact X|].
  rewrite R. cbn in D. injection D as <- <-. reflexivity.
Defined.

(** ** The single layers *)

(** [plot_atac] draws the peak rows in table order, each as one
    rectangle at the height of its sample (one hundredth below to one
    hundredth above) in the colour of its sample, with a hover outline
    whose text carries the sample's label and the exact coordinates; it
    touches neither the arrow nor the axis.  It raises [KeyError] as
    soon as a row names a sample outside the six timepoints. *)
Theorem peaks_drawn_per_sample (fig : Figure) (atac_data : list AtacRow) :
  ((forall row, In row atac_data -> known_sample (a_sample row)) ->
   exists fig' drawn,
     plot_atac fig atac_data = Ok fig'
     /\ Forall2 drawn_peak atac_data drawn
     /\ shapes fig' = (shapes fig ++ map fst drawn)%list
     /\ traces fig' = (traces fig ++ map snd drawn)%list
     /\ annotations fig' = annotations fig
     /\ xaxis fig' = xaxis fig)
  /\ ((exists row, In row atac_data /\ ~ known_sample (a_sample row)) ->
      plot_atac fig atac_data = Raise KeyError).
Proof.
  split.
  - intros K. destruct (plot_atac_known atac_data fig K) as [drawn [F E]].
    eexists. exists drawn. split; [exact E|]. split; [exact F|].
    repeat split; reflexivity.
  - apply plot_atac_unknown.
Qed.

Lemma peaks_drawn_per_sample_witness :
  (forall row, In row Samples.slc4a1a_peaks -> known_sample (a_sample row))
  /\ exists fig' rect trace,
       plot_atac empty_figure Samples.slc4a1a_peaks = Ok fig'
       /\ shapes fig' = [rect] /\ traces fig' = [trace]
       /\ (r_y0 rect == 19 # 100)%Q /\ (r_y1 rect == 21 # 100)%Q
       /\ r_color rect = "#440154"%string
       /\ sc_text trace
          = Some ("<b>Sample:</b> 10 hours post fertilization<br>"
                  ++ "<b>Start:</b> 150<br><b>End:</b> 350<br>")%string.
Proof.
  assert (K : forall row, In row Samples.slc4a1a_peaks
                          -> known_sample (a_sample row)).
  { intros row [<-|[]]. cbn. tauto. }
  split; [exact K|].
  destruct (proj1 (peaks_drawn_per_sample empty_figure
                     Samples.slc4a1a_peaks) K)
    as [fig' [drawn [E [F [S [T _]]]]]].
  cbn in E. injection E as <-.
  eexists. eexists. eexists. split; [reflexivity|].
  repeat split; reflexivity.
Defined.

(** [plot_gene] needs at least one exon row: on an empty table reading
    the strand raises [IndexError].  Otherwise it adds the grey line
    from the smallest start to the largest end, then one rectangle and
    one hover outline per exon in table order, and leaves the axis
    alone; the [start] and [end] it is called with play no part. *)
Theorem exons_drawn_in_order (fig : Figure) (gene_data : list GeneRow)
        (start end_ : Z) :
  (gene_data = [] -> plot_gene fig gene_data start end_ = Raise IndexError)
  /\ (gene_data <> [] ->
      exists fig',
        plot_gene fig gene_data start end_ = Ok fig'
        /\ shapes fig'
           = (shapes fig ++ map exon_rect (coordinates gene_data))%list
        /\ traces fig'
           = (traces fig
                ++ gene_line (col_min (map g_start gene_data))
                             (col_max (map g_end gene_data))
                   :: map exon_trace (coordinates gene_data))%list
        /\ xaxis fig' = xaxis fig)
  /\ (forall start' end',
         plot_gene fig gene_data start' end'
         = plot_gene fig gene_data start end_).
Proof.
  split; [|split].
  - intros ->. reflexivity.
  - destruct gene_data as [|r rest]; [congruence|]. intros _.
    eexists. split; [apply plot_gene_layers|].
    repeat split; reflexivity.
  - reflexivity.
Qed.

Lemma exons_drawn_in_order_witness :
  Samples.slc4a1a_exons <> []
  /\ exists fig',
       plot_gene empty_figure Samples.slc4a1a_exons 0 0 = Ok fig'
       /\ map span (shapes fig') = [(100, 200); (300, 400)]
       /\ map sc_text (traces fig')
          = [None; Some "<b>Start:</b> 100<br><b>End:</b> 200"%string;
             Some "<b>Start:</b> 300<br><b>End:</b> 400"%string].
Proof.
  assert (N : Samples.slc4a1a_exons <> []) by discriminate.
  split; [exact N|].
  destruct (proj1 (proj2 (exons_drawn_in_order empty_figure
                            Samples.slc4a1a_exons 0 0)) N)
    as [fig' [E [S [T _]]]].
  exists fig'. split; [exact E|]. rewrite S, T. split; reflexivity.
Defined.

(** ** Ticks in order *)

Lemma range_sorted (lo step : Z) (n a : nat) :
  0 < step ->
  StronglySorted Z.lt
    (map (fun k => lo + step * Z.of_nat k) (seq a n)).
Proof.
  intros Hs. revert a. induction n as [|n IH]; intros a; cbn [seq map].
  - constructor.
  - constructor; [apply IH|].
    apply Forall_forall. intros t Ht.
    apply in_map_iff in Ht as [k [<- Hk]]. apply in_seq in Hk. nia.
Qed.

(** The ticks come in strictly ascending order (so no position is
    ticked twice); a range with [end < start] has none; a range with
    [start <= end] has [(end - start) // 5000 + 1] of them, and its
    largest tick is less than one stride short of [end]. *)
Theorem ticks_ascend_and_reach_the_end (start end_ : Z) :
  StronglySorted Z.lt (chromosome_ticks start end_)
  /\ (end_ < start -> chromosome_ticks start end_ = [])
  /\ (start <= end_ ->
      List.length (chromosome_ticks start end_)
      = Z.to_nat ((end_ - start) / 5000 + 1)
      /\ exists top,
           In top (chromosome_ticks start end_)
           /\ end_ - 5000 < top <= end_
           /\ forall t, In t (chromosome_ticks start end_) -> t <= top).
Proof.
  split; [|split].
  - unfold chromosome_ticks, Py.range, tick_stride.
    apply range_sorted. lia.
  - intros H. unfold chromosome_ticks, Py.range, Py.range_length.
    destruct (Z.ltb_spec start (end_ + 1)); [lia | reflexivity].
  - intros H. split.
    + unfold chromosome_ticks, Py.range, Py.range_length, tick_stride.
      rewrite length_map, length_seq.
      destruct (Z.ltb_spec start (end_ + 1)); [|lia].
      replace (end_ + 1 - start - 1) with (end_ - start) by lia.
      reflexivity.
    + pose proof (Z.div_mod (end_ - start) 5000 ltac:(lia)) as DM.
      pose proof (Z.mod_pos_bound (end_ - start) 5000 ltac:(lia)) as MB.
      assert (Q0 : 0 <= (end_ - start) / 5000) by (apply Z.div_pos; lia).
      exists (start + 5000 * ((end_ - start) / 5000)).
      split; [|split].
      * apply PlotBothFacts.in_chromosome_ticks. split; [lia|].
        unfold tick_stride.
        replace (start + 5000 * ((end_ - start) / 5000) - start)
          with ((end_ - start) / 5000 * 5000) by ring.
        apply Z.mod_mul. lia.
      * lia.
      * intros t Ht. apply PlotBothFacts.in_chromosome_ticks in Ht.
        destruct Ht as [[L U] M]. unfold tick_stride in M.
        pose proof (Z.div_mod (t - start) 5000 ltac:(lia)) as DT.
        rewrite M in DT.
        assert ((t - start) / 5000 <= (end_ - start) / 5000)
          by (apply Z.div_le_mono; lia).
        lia.
Qed.

Lemma ticks_ascend_and_reach_the_end_witness :
  100 <= 12000
  /\ List.length (chromosome_ticks 100 12000) = 3%nat
  /\ (400 < 500 -> chromosome_ticks 500 400 = []).
Proof.
  split; [lia|]. split.
  - apply (proj2 (proj2 (ticks_ascend_and_reach_the_end 100 12000))). lia.
  - apply (proj1 (proj2 (ticks_ascend_and_reach_the_end 500 400))).
Defined.

(** ** Rows of other genes *)

Lemma filter_skip {A : Type} (f : A -> bool) (l1 extra l2 : list A) :
  (forall x, In x extra -> f x = false) ->
  filter f (l1 ++ extra ++ l2) = filter f (l1 ++ l2).
Proof.
  intros H. rewrite !filter_app.
  rewrite (PlotBothFacts.filter_none f extra H). reflexivity.
Qed.

(** [get_data] keeps exactly the rows of the requested gene, in table
    order, so rows of other genes, wherever they stand in the two
    tables, change nothing in what [combined_plot] returns. *)
Theorem other_genes_are_ignored (option : string)
        (g1 extra_g g2 : list GeneRow) (a1 extra_a a2 : list AtacRow) :
  (forall r, In r extra_g -> g_gene_name r <> option) ->
  (forall r, In r extra_a -> a_gene_name r <> option) ->
  get_data (g1 ++ extra_g ++ g2) (a1 ++ extra_a ++ a2) option
  = get_data (g1 ++ g2) (a1 ++ a2) option
  /\ combined_plot (g1 ++ extra_g ++ g2) (a1 ++ extra_a ++ a2) option
     = combined_plot (g1 ++ g2) (a1 ++ a2) option
  /\ Forall (fun r => g_gene_name r = option)
            (fst (get_data (g1 ++ extra_g ++ g2) (a1 ++ extra_a ++ a2)
                           option))
  /\ Forall (fun r => a_gene_name r = option)
            (snd (get_data (g1 ++ extra_g ++ g2) (a1 ++ extra_a ++ a2)
                           option)).
Proof.
  intros Hg Ha.
  assert (E : get_data (g1 ++ extra_g ++ g2) (a1 ++ extra_a ++ a2) option
              = get_data (g1 ++ g2) (a1 ++ a2) option).
  { unfold get_data. f_equal; apply filter_skip; intros x Hx;
      apply String.eqb_neq; auto. }
  split; [exact E|]. split; [unfold combined_plot; now rewrite E|].
  split; apply Forall_forall; intros r Hr; cbn [get_data fst snd] in Hr;
    apply filter_In in Hr as [_ Hr]; now apply String.eqb_eq.
Qed.

Lemma other_genes_are_ignored_witness :
  (forall r, In r Samples.other_genes -> g_gene_name r <> "slc4a1a"%string)
  /\ (forall r, In r Samples.other_access
                -> a_gene_name r <> "slc4a1a"%string)
  /\ combined_plot (Samples.other_genes ++ Samples.slc4a1a_exons)
                   (Samples.slc4a1a_peaks ++ Samples.other_access)
                   "slc4a1a"
     = combined_plot Samples.slc4a1a_exons Samples.slc4a1a_peaks "slc4a1a".
Proof.
  assert (Hg : forall r, In r Samples.other_genes
                         -> g_gene_name r <> "slc4a1a"%string).
  { intros r [<-|[]]. discriminate. }
  assert (Ha : forall r, In r Samples.other_access
                         -> a_gene_name r <> "slc4a1a"%string).
  { intros r [<-|[]]. discriminate. }
  split; [exact Hg|]. split; [exact Ha|].
  pose proof (other_genes_are_ignored "slc4a1a" [] Samples.other_genes
                Samples.slc4a1a_exons Samples.slc4a1a_peaks
                Samples.other_access [] Hg Ha) as [_ [C _]].
  rewrite !app_nil_r in C. exact C.
Defined.

End TrackFacts.


(* ================================================================== *)
(** * Further properties of [corr/plot_corr.py]: outcomes and traces *)
(* ================================================================== *)

Module RenderFacts.

Import PlotCorr Spec Layers.

(** ** The correlation step, case by case *)



Lemma corr_score_misaligned (expr_rna expr_atac : list Q) :
  all_equal_first expr_rna = Ok false ->
  all_equal_first expr_atac = Ok false ->
  List.length expr_rna <> List.length expr_atac ->
  corr_score expr_rna expr_atac = Raise ValueError.
Proof.
  intros Gx Gy L. unfold corr_score, corr_score_with. rewrite Gx, Gy.
  cbn [Py.bind]. unfold pearsonr.
  apply Nat.eqb_neq in L. rewrite L. reflexivity.
Qed.




(** ** What every trace of the grid carries *)

Lemma np_max_nonempty (v : list Q) (m : Q) : np_max v = Ok m -> v <> [].
Proof. destruct v; [discriminate | discriminate]. Qed.

Lemma loop_rendered (color_dict : Py.dict string) (gene : string)
      (gene_dict : GeneDict) (items : list (nat * string))
      (st st' : LoopState) :
  Py.for_each (loop_body color_dict gene gene_dict) items st = Ok st' ->
  exists ts,
    traces (st_fig st') = (traces (st_fig st) ++ ts)%list
    /\ Forall2 (rendered_trace color_dict gene gene_dict) items ts.
Proof.
  revert st. induction items as [|[index sample_id] items IH]; intros st H.
  - cbn [Py.for_each] in H. injection H as <-.
    exists []. split; [now rewrite app_nil_r | constructor].
  - cbn [Py.for_each] in H.
    destruct (loop_body color_dict gene gene_dict st (index, sample_id))
      as [st1|] eqn:B; [|discriminate].
    cbn [Py.bind] in H.
    destruct (GridFacts.loop_body_inv _ _ _ st st1 index sample_id B)
      as [rna [atac [colors [corr [names [m_rna [m_atac [fig'
           [D [Ec [En [Mr [Ma [A E]]]]]]]]]]]]]].
    apply GridFacts.add_trace_inv in A.
    destruct (IH st1 H) as [ts [T F]].
    subst st1. cbn [st_fig] in T. subst fig'. cbn [traces] in T.
    exists ((index / 3 + 1, index mod 3 + 1,
             mkScatter atac rna colors names) :: ts)%nat.
    split; [rewrite T, <- app_assoc; reflexivity|].
    constructor; [|exact F].
    exists rna, atac, colors, names.
    split; [exact D|]. split; [rewrite Ec; reflexivity|].
    split; [exact En|].
    split; [exact (np_max_nonempty _ _ Mr)|].
    split; [exact (np_max_nonempty _ _ Ma) | reflexivity].
Qed.

Lemma Forall2_In_l {A B : Type} (R : A -> B -> Prop) (xs : list A)
      (ys : list B) (x : A) :
  Forall2 R xs ys -> In x xs -> exists y, In y ys /\ R x y.
Proof.
  induction 1 as [|a b xs ys Rab F IH]; intros Hin; [contradiction|].
  destruct Hin as [<-|Hin].
  - exists b. split; [now left | exact Rab].
  - destruct (IH Hin) as [y [Hy Ry]]. exists y. split; [now right | exact Ry].
Qed.

Lemma invert_sound (color_dict : Py.dict string) (c k : string) :
  Py.getitem (invert color_dict) c = Ok k -> In (k, c) color_dict.
Proof.
  intros H.
  destruct (in_dec string_dec c (Py.values color_dict)) as [Hin|Hn].
  - destruct (PaletteFacts.invert_present color_dict c Hin) as [k' [E I]].
    rewrite E in H. injection H as <-. exact I.
  - rewrite (PaletteFacts.invert_missing color_dict c Hn) in H.
    discriminate.
Qed.

Lemma plot_genes_traces (color_dict : Py.dict string) (gene : string)
      (gene_dict : GeneDict) (fig : Figure) :
  plot_genes color_dict gene gene_dict = Ok fig ->
  Forall2 (rendered_trace color_dict gene gene_dict)
          (Py.enumerate (Py.keys timepoints)) (traces fig).
Proof.
  intros H.
  destruct (GridFacts.plot_genes_loop _ _ _ _ H)
    as [st' [texts [E [_ ->]]]].
  destruct (loop_rendered _ _ _ _ _ _ E) as [ts [T F]].
  cbn [traces]. cbn in T. rewrite T. exact F.
Qed.

(** In every figure [plot_genes] returns, each scatter trace has the
    accessibility values on x and the expression values on y of its
    timepoint, the colours of the input as marker colours, and one
    hover name per colour, in order: a cell type that the palette maps
    to that colour. *)
Theorem hover_names_follow_the_colours (color_dict : Py.dict string)
        (gene : string) (gene_dict : GeneDict) (fig : Figure) :
  plot_genes color_dict gene gene_dict = Ok fig ->
  forall row col scatter,
    In (row, col, scatter) (traces fig) ->
    exists sample_id expr_rna expr_atac colors,
      In sample_id (Py.keys timepoints)
      /\ sample_data gene gene_dict sample_id
         = Ok (expr_rna, expr_atac, colors)
      /\ sc_x scatter = expr_atac /\ sc_y scatter = expr_rna
      /\ sc_marker_color scatter = colors
      /\ List.length (sc_text scatter) = List.length colors
      /\ Forall2 (fun c k => In (k, c) color_dict)
                 colors (sc_text scatter).
Proof.
  intros H row col scatter Hin.
  pose proof (plot_genes_traces _ _ _ _ H) as F.
  destruct (TrackFacts.Forall2_In_r _ _ _ _ F Hin)
    as [[i sample_id] [Hi [rna [atac [colors [names
         [D [_ [N [_ [_ Eq]]]]]]]]]]].
  cbn [fst snd] in *. injection Eq as _ _ ->.
  exists sample_id, rna, atac, colors.
  split.
  { unfold Py.enumerate in Hi. apply in_combine_r in Hi. exact Hi. }
  split; [exact D|]. cbn [sc_x sc_y sc_marker_color sc_text].
  repeat (split; [reflexivity|]).
  apply GridFacts.comprehension_Forall2 in N.
  split.
  - symmetry. exact (Forall2_length N).
  - clear - N. induction N as [|c k cs ks Hck N IH]; constructor; auto.
    now apply invert_sound.
Qed.

Lemma hover_names_follow_the_colours_witness :
  exists fig scatter,
    plot_genes Samples.sample_palette "slc4a1a" Samples.flat_expression
    = Ok fig
    /\ In (1%nat, 3%nat, scatter) (traces fig)
    /\ sc_marker_color scatter = ["#1f78b4"; "#8dd3c7"]%string
    /\ Forall2 (fun c k => In (k, c) Samples.sample_palette)
               ["#1f78b4"; "#8dd3c7"]%string (sc_text scatter).
Proof.
  eassert (E : plot_genes Samples.sample_palette "slc4a1a"
                          Samples.flat_expression = Ok _)
    by (vm_compute; reflexivity).
  match type of E with _ = Ok ?f => pose (fig := f) end.
  assert (I : In (1%nat, 3%nat,
                  mkScatter [9; 4]%Q [3; 3]%Q
                            ["#1f78b4"; "#8dd3c7"]%string
                            ["Somites"; "NMPs"]%string)
                 (traces fig)) by (cbn; tauto).
  destruct (hover_names_follow_the_colours _ _ _ _ E _ _ _ I)
    as [sid [rna [atac [colors [_ [_ [_ [_ [Ec [_ F]]]]]]]]]].
  exists fig. eexists. split; [exact E|]. split; [exact I|].
  split; [reflexivity|]. cbn [sc_marker_color] in Ec. rewrite Ec. exact F.
Defined.

(** ** When [plot_genes] returns a figure *)

Lemma render_body_succeeds (color_dict : Py.dict string) (gene : string)
      (gene_dict : GeneDict) (st : LoopState) (index : nat)
      (sample_id : string) :
  renderable color_dict gene gene_dict ->
  In sample_id (Py.keys timepoints) -> (index < 6)%nat ->
  fig_rows (st_fig st) = 2%nat -> fig_cols (st_fig st) = 3%nat ->
  exists st',
    loop_body color_dict gene gene_dict st (index, sample_id) = Ok st'
    /\ fig_rows (st_fig st') = 2%nat /\ fig_cols (st_fig st') = 3%nat.
Proof.
  intros V Hin Hlt R C.
  destruct (V sample_id Hin)
    as [rna [atac [colors [D [Hr [Ha [Al K]]]]]]].
  assert (Ec : exists corr, corr_score rna atac = Ok corr).
  { destruct (CorrelationFacts.guard_total rna Hr) as [[Gx _]|[Gx Nx]].
    - exists NaN. apply CorrelationFacts.corr_score_guarded. now left.
    - destruct (CorrelationFacts.guard_total atac Ha) as [[Gy _]|[Gy Ny]].
      + exists NaN. apply CorrelationFacts.corr_score_guarded. now right.
      + destruct Al as [Cx|[Cy|L]]; [contradiction | contradiction |].
        eexists.
        apply (CorrelationFacts.corr_score_computed _ _ Gx Gy L). }
  destruct Ec as [corr Ec].
  destruct (GridFacts.comprehension_total
              (Py.getitem (invert color_dict)) colors) as [names En].
  { intros c Hc.
    destruct (PaletteFacts.invert_present color_dict c (K c Hc))
      as [k [Ek _]]. now exists k. }
  destruct (GridFacts.np_max_total rna Hr) as [m_rna Er].
  destruct (GridFacts.np_max_total atac Ha) as [m_atac Ea].
  unfold sample_data in D.
  destruct (Py.getitem gene_dict gene) as [by_sample|] eqn:G;
    [|discriminate].
  cbn [Py.bind] in D.
  eexists. unfold loop_body. rewrite G. cbn [Py.bind].
  rewrite D. cbn [Py.bind]. rewrite Ec. cbn [Py.bind].
  rewrite En. cbn [Py.bind]. rewrite Er, Ea. cbn [Py.bind].
  unfold add_trace. rewrite (GridFacts.in_grid_index _ index R C Hlt).
  cbn [Py.bind]. split; [reflexivity|]. split; assumption.
Qed.

Lemma render_loop_succeeds (color_dict : Py.dict string) (gene : string)
      (gene_dict : GeneDict) (items : list (nat * string))
      (st : LoopState) :
  renderable color_dict gene gene_dict ->
  (forall item, In item items ->
                In (snd item) (Py.keys timepoints) /\ (fst item < 6)%nat) ->
  fig_rows (st_fig st) = 2%nat -> fig_cols (st_fig st) = 3%nat ->
  exists st',
    Py.for_each (loop_body color_dict gene gene_dict) items st = Ok st'.
Proof.
  intros V. revert st.
  induction items as [|[index sample_id] items IH]; intros st H R C.
  - now exists st.
  - destruct (H (index, sample_id) (or_introl eq_refl)) as [Hin Hlt].
    destruct (render_body_succeeds _ _ _ st index sample_id V Hin Hlt R C)
      as [st1 [B [R1 C1]]].
    destruct (IH st1) as [st' E]; auto.
    { intros item Hitem. apply H. now right. }
    exists st'. cbn [Py.for_each]. rewrite B. exact E.
Qed.

Lemma enumerate_has (sample_id : string) :
  In sample_id (Py.keys timepoints) ->
  exists i, In (i, sample_id) (Py.enumerate (Py.keys timepoints)).
Proof.
  intros H. cbn in H.
  repeat (destruct H as [<-|H]; [eexists; cbn; tauto|]). contradiction.
Qed.

(** [plot_genes] returns a figure exactly when every one of the six
    timepoints of the gene is present with a non-empty expression and
    a non-empty accessibility vector, colours that all occur in the
    palette, and vectors of equal length unless one of them is
    constant. *)
Theorem plot_genes_succeeds_iff_renderable (color_dict : Py.dict string)
        (gene : string) (gene_dict : GeneDict) :
  (exists fig, plot_genes color_dict gene gene_dict = Ok fig)
  <-> renderable color_dict gene gene_dict.
Proof.
  split.
  - intros [fig H] sample_id Hin.
    pose proof (plot_genes_traces _ _ _ _ H) as F.
    destruct (enumerate_has sample_id Hin) as [i Hi].
    destruct (Forall2_In_l _ _ _ _ F Hi)
      as [t [_ [rna [atac [colors [names [D [Ok_c [N [Hr [Ha _]]]]]]]]]]].
    cbn [snd] in D. exists rna, atac, colors.
    split; [exact D|]. split; [exact Hr|]. split; [exact Ha|].
    split.
    + destruct (CorrelationFacts.guard_total rna Hr) as [[_ Cx]|[Gx _]];
        [now left|].
      destruct (CorrelationFacts.guard_total atac Ha) as [[_ Cy]|[Gy _]];
        [right; now left|].
      right. right.
      destruct (Nat.eq_dec (List.length rna) (List.length atac))
        as [L|L]; [exact L|].
      rewrite (corr_score_misaligned _ _ Gx Gy L) in Ok_c. discriminate.
    + intros c Hc.
      destruct (in_dec string_dec c (Py.values color_dict)) as [I|I];
        [exact I|].
      rewrite (PaletteFacts.comprehension_raises _ colors c Hc
                 (PaletteFacts.invert_missing color_dict c I)) in N.
      discriminate.
  - intros V.
    destruct (render_loop_succeeds color_dict gene gene_dict
                (Py.enumerate (Py.keys timepoints)) initial_state V)
      as [st' E]; [|reflexivity|reflexivity|].
    + intros item Hitem. cbn in Hitem.
      repeat (destruct Hitem as [<-|Hitem];
              [split; [cbn; tauto | cbn; lia]|]).
      contradiction.
    + destruct (GridFacts.plot_genes_after_loop _ _ _ st' E)
        as [texts [_ P]].
      eexists. exact P.
Qed.

Lemma flat_and_misaligned_renderable :
  renderable Samples.sample_palette "slc4a1a"
             MoreSamples.flat_and_misaligned.
Proof.
  intros sample_id H. cbn in H.
  repeat (destruct H as [<-|H];
          [do 3 eexists;
           split; [reflexivity|];
           split; [discriminate|];
           split; [discriminate|];
           split;
           [left; intros a b Ha Hb; cbn in Ha, Hb;
            repeat (destruct Ha as [<-|Ha]); try contradiction;
            repeat (destruct Hb as [<-|Hb]); try contradiction;
            reflexivity
           |cbn; intros c Hc; intuition (subst; auto)]|]).
  contradiction.
Qed.

Lemma plot_genes_succeeds_iff_renderable_witness :
  renderable Samples.sample_palette "slc4a1a"
             MoreSamples.flat_and_misaligned
  /\ exists fig,
       plot_genes Samples.sample_palette "slc4a1a"
                  MoreSamples.flat_and_misaligned = Ok fig.
Proof.
  split; [exact flat_and_misaligned_renderable|].
  apply (proj2 (plot_genes_succeeds_iff_renderable Samples.sample_palette
                  "slc4a1a" MoreSamples.flat_and_misaligned)).
  exact flat_and_misaligned_renderable.
Defined.

(** ** Points and axes *)

Lemma placed_cells (gene : string) (gene_dict : GeneDict)
      (items : list (nat * string)) (ts : list (nat * nat * Scatter)) :
  Forall2 (placed_trace gene gene_dict) items ts ->
  map fst ts
  = map (fun item => ((fst item / 3 + 1)%nat, (fst item mod 3 + 1)%nat))
        items.
Proof.
  induction 1 as [|item t items ts [rna [atac [colors [names [_ ->]]]]] F IH];
    [reflexivity|].
  cbn [map fst]. now rewrite IH.
Qed.

Lemma in_gene_values (sel : PerSample -> list Q) (gene : string)
      (gene_dict : GeneDict) (sample_id : string) (d : PerSample) (v : Q) :
  In sample_id (Py.keys timepoints) ->
  sample_data gene gene_dict sample_id = Ok d ->
  In v (sel d) -> In v (gene_values sel gene gene_dict).
Proof.
  intros Hs D Hv. unfold gene_values. apply in_flat_map.
  exists sample_id. split; [exact Hs|].
  unfold vector_of. rewrite D. exact Hv.
Qed.

(** In every figure [plot_genes] returns, the six traces fill the six
    cells of the grid row by row, one trace per cell, and no plotted
    point lies beyond the upper end of the shared axes: every x value
    of every trace is at most the x-axis bound and every y value at
    most the y-axis bound. *)
Theorem points_never_exceed_the_axes (color_dict : Py.dict string)
        (gene : string) (gene_dict : GeneDict) (fig : Figure) :
  plot_genes color_dict gene gene_dict = Ok fig ->
  map fst (traces fig) = grid_cells
  /\ exists m_atac m_rna,
       (forall row col,
           grid_cell row col ->
           get_axis (xaxes fig) (row, col)
           = Some (mkAxis "ATAC" (0, m_atac))
           /\ get_axis (yaxes fig) (row, col)
              = Some (mkAxis "RNA" (0, m_rna)))
       /\ forall row col scatter,
            In (row, col, scatter) (traces fig) ->
            (forall x, In x (sc_x scatter) -> (x <= m_atac)%Q)
            /\ (forall y, In y (sc_y scatter) -> (y <= m_rna)%Q).
Proof.
  intros H.
  destruct (GridFacts.plot_genes_loop _ _ _ _ H)
    as [st' [texts [E [_ ->]]]].
  destruct (GridFacts.loop_invariant _ _ _ _ _ _ E)
    as [_ [_ [_ [_ [_ [[ts [T F]] [_ [Rm Am]]]]]]]].
  cbn [traces xaxes yaxes]. cbn in T. rewrite T.
  split; [rewrite (placed_cells _ _ _ _ F); reflexivity|].
  exists (st_atac_max st'), (st_rna_max st'). split.
  - intros row col Hc. split; now apply GridFacts.get_shared_axis.
  - intros row col scatter Hin.
    destruct (TrackFacts.Forall2_In_r _ _ _ _ F Hin)
      as [[i sample_id] [Hi [rna [atac [colors [names [D Eq]]]]]]].
    cbn [fst snd] in *. injection Eq as _ _ ->.
    cbn [sc_x sc_y].
    assert (Hs : In sample_id (Py.keys timepoints)).
    { unfold Py.enumerate in Hi. apply in_combine_r in Hi. exact Hi. }
    destruct Rm as [_ [_ Rall]]. destruct Am as [_ [_ Aall]].
    split; intros v Hv.
    + apply Aall.
      apply (in_gene_values accessibility _ _ sample_id
               (rna, atac, colors) v Hs D Hv).
    + apply Rall.
      apply (in_gene_values expression _ _ sample_id
               (rna, atac, colors) v Hs D Hv).
Qed.

Lemma points_never_exceed_the_axes_witness :
  exists fig,
    plot_genes Samples.sample_palette "slc4a1a" Samples.flat_expression
    = Ok fig
    /\ map fst (traces fig)
       = [(1, 1); (1, 2); (1, 3); (2, 1); (2, 2); (2, 3)]%nat.
Proof.
  eassert (E : plot_genes Samples.sample_palette "slc4a1a"
                          Samples.flat_expression = Ok _)
    by (vm_compute; reflexivity).
  eexists. split; [exact E|].
  apply (points_never_exceed_the_axes _ _ _ _ E).
Defined.

(** ** Titles *)


(** ** Errors before any figure *)

(** A gene that is not a key of the dictionary makes [plot_genes] raise
    [KeyError] in its first iteration, whatever the palette. *)
Theorem unknown_gene_raises_KeyError (color_dict : Py.dict string)
        (gene : string) (gene_dict : GeneDict) :
  ~ In gene (Py.keys gene_dict) ->
  plot_genes color_dict gene gene_dict = Raise KeyError.
Proof.
  intros H. pose proof (TrackFacts.getitem_unknown gene_dict gene H) as G.
  unfold plot_genes, Py.enumerate.
  cbn [Py.keys timepoints map fst List.length seq combine Py.for_each].
  unfold loop_body at 1. rewrite G. reflexivity.
Qed.

Lemma unknown_gene_raises_KeyError_witness :
  ~ In "myod1"%string (Py.keys Samples.flat_expression)
  /\ plot_genes Samples.sample_palette "myod1" Samples.flat_expression
     = Raise KeyError.
Proof.
  assert (H : ~ In "myod1"%string (Py.keys Samples.flat_expression)).
  { cbn. intuition (try discriminate). }
  split; [exact H|].
  apply (unknown_gene_raises_KeyError Samples.sample_palette "myod1"
           Samples.flat_expression H).
Defined.

(** ** A palette that is not injective *)

(** When two cell types of the palette have the same colour, the
    inverted dictionary keeps the later one: the earlier cell type
    still maps to the colour, but the colour maps back to the later
    cell type, so points of the earlier type get the later type's name
    on hover. *)
Theorem shared_colour_keeps_last_cell_type
        (d1 d2 : Py.dict string) (k1 k c : string) :
  Py.wf_dict (d1 ++ (k, c) :: d2)%list ->
  In (k1, c) d1 ->
  ~ In c (Py.values d2) ->
  Py.getitem (d1 ++ (k, c) :: d2)%list k1 = Ok c
  /\ Py.getitem (invert (d1 ++ (k, c) :: d2)%list) c = Ok k
  /\ k <> k1.
Proof.
  intros WF Hin Hn. split; [|split].
  - apply PaletteFacts.In_getitem; [exact WF|].
    apply in_or_app. now left.
  - rewrite PaletteFacts.invert_unfold.
    now apply PaletteFacts.invert_last.
  - unfold Py.wf_dict, Py.keys in WF. rewrite map_app in WF.
    cbn [map fst] in WF. apply NoDup_remove_2 in WF.
    intros ->. apply WF. apply in_or_app. left.
    apply in_map_iff. exists (k1, c). auto.
Qed.

Lemma shared_colour_keeps_last_cell_type_witness :
  Py.wf_dict MoreSamples.shared_colour_palette
  /\ Py.getitem MoreSamples.shared_colour_palette "NMPs" = Ok "#8dd3c7"
  /\ Py.getitem (invert MoreSamples.shared_colour_palette) "#8dd3c7"
     = Ok "Somites".
Proof.
  assert (WF : Py.wf_dict MoreSamples.shared_colour_palette).
  { unfold Py.wf_dict. cbn.
    repeat constructor; cbn; intuition (try discriminate). }
  split; [exact WF|].
  destruct (shared_colour_keeps_last_cell_type
              [("NMPs", "#8dd3c7"); ("PSM", "#008080")] []
              "NMPs" "Somites" "#8dd3c7" WF) as [A [B _]].
  - now left.
  - intros [].
  - split; [exact A | exact B].
Defined.

End RenderFacts.


(* ================================================================== *)
(** * Properties of the session and the entry point *)
(* ================================================================== *)

Module AppFacts.

Import App.

(** ** [list.index] *)

Lemma index_found (x : string) (xs : list string) :
  In x xs ->
  exists n, PyStr.index x xs = Ok n /\ nth n xs EmptyString = x.
Proof.
  induction xs as [|y xs IH]; intros H; [contradiction|].
  cbn [PyStr.index]. destruct (String.eqb_spec y x) as [E|N].
  - exists 0%nat. split; [reflexivity | exact E].
  - destruct H as [H|H]; [congruence|].
    destruct (IH H) as [n [En Hn]]. exists (S n).
    rewrite En. split; [reflexivity | exact Hn].
Qed.

Lemma index_missing (x : string) (xs : list string) :
  ~ In x xs -> PyStr.index x xs = Raise ValueError.
Proof.
  induction xs as [|y xs IH]; intros H; [reflexivity|].
  cbn [PyStr.index]. destruct (String.eqb_spec y x) as [E|N].
  - exfalso. apply H. now left.
  - rewrite IH; [reflexivity|]. intros Hin. apply H. now right.
Qed.

(** ** The list of dropdown keys *)

Lemma update_consecutive (k : nat) (p : Presses) :
  update_selectboxes (Some (seq 0 (S k))) p
  = seq 0 (S (if reset p then 0 else if add_gene p then S k else k)).
Proof.
  unfold update_selectboxes.
  destruct (reset p); [reflexivity|].
  destruct (add_gene p); [|reflexivity].
  rewrite length_seq. symmetry. apply seq_S.
Qed.

Lemma update_fresh (p : Presses) :
  update_selectboxes None p = update_selectboxes (Some (seq 0 1)) p.
Proof. reflexivity. Qed.

Lemma runs_consecutive (runs : list Presses) (k : nat) :
  fold_left (fun session p => Some (update_selectboxes session p))
            runs (Some (seq 0 (S k)))
  = Some (seq 0 (S (adds_since_reset runs k))).
Proof.
  revert k. induction runs as [|p runs IH]; intros k; [reflexivity|].
  cbn [fold_left adds_since_reset]. rewrite update_consecutive. apply IH.
Qed.

(** After any number of runs of the script the session holds the keys
    [0, 1, ..., n] with no gap and no repetition, where [n] is the
    number of [Add Gene] presses since the last [Reset]: every dropdown
    has its own key and there is always at least one dropdown. *)
Theorem selectboxes_stay_consecutive (runs : list Presses) :
  runs <> [] ->
  after_runs runs = Some (seq 0 (S (adds_since_reset runs 0)))
  /\ exists boxes,
       after_runs runs = Some boxes
       /\ NoDup boxes /\ boxes <> []
       /\ List.length boxes = S (adds_since_reset runs 0).
Proof.
  intros Hne.
  assert (E : after_runs runs
              = Some (seq 0 (S (adds_since_reset runs 0)))).
  { destruct runs as [|p runs]; [congruence|].
    unfold after_runs. cbn [fold_left adds_since_reset].
    rewrite update_fresh, update_consecutive. apply runs_consecutive. }
  split; [exact E|].
  eexists. split; [exact E|].
  split; [apply seq_NoDup|]. split; [discriminate|]. apply length_seq.
Qed.

Lemma selectboxes_stay_consecutive_witness :
  MoreSamples.add_add_reset_add_add <> []
  /\ after_runs MoreSamples.add_add_reset = Some [0%nat]
  /\ after_runs MoreSamples.add_add_reset_add_add
     = Some [0; 1; 2]%nat.
Proof.
  split; [discriminate|]. split.
  - apply (selectboxes_stay_consecutive MoreSamples.add_add_reset).
    discriminate.
  - apply (selectboxes_stay_consecutive MoreSamples.add_add_reset_add_add).
    discriminate.
Defined.

(** ** [st_setup] *)

(** [st_setup] first updates the list of dropdown keys in the session
    and keeps that update even when it then fails.  It raises
    [ValueError] exactly when the default gene [slc4a1a] is not among
    the gene names; otherwise it returns one gene per dropdown, in key
    order: the user's choice for that dropdown, or [slc4a1a] where the
    user has made none. *)
Theorem st_setup_selects_one_gene_per_dropdown
        (session : option (list nat)) (p : Presses)
        (choice : nat -> option string) (gene_names : list string) :
  fst (st_setup session p choice gene_names)
  = Some (update_selectboxes session p)
  /\ (~ In default_gene gene_names ->
      snd (st_setup session p choice gene_names) = Raise ValueError)
  /\ (In default_gene gene_names ->
      snd (st_setup session p choice gene_names)
      = Ok (map (fun key => match choice key with
                            | Some g => g
                            | None => default_gene
                            end)
                (update_selectboxes session p))).
Proof.
  split; [reflexivity|]. split.
  - intros H. cbn [st_setup snd]. rewrite (index_missing _ _ H).
    reflexivity.
  - intros H. cbn [st_setup snd].
    destruct (index_found _ _ H) as [n [En Hn]]. rewrite En.
    cbn [Py.bind]. f_equal. apply map_ext. intros key.
    unfold selectbox. rewrite Hn. reflexivity.
Qed.

Lemma st_setup_selects_one_gene_per_dropdown_witness :
  In default_gene ["myod1"; "slc4a1a"; "tbxta"]%string
  /\ ~ In default_gene ["myod1"; "tbxta"]%string
  /\ snd (st_setup (Some [0; 1]%nat) (mkPresses true false)
                   (fun key => if (key =? 1)%nat then Some "tbxta"%string
                               else None)
                   ["myod1"; "slc4a1a"; "tbxta"]%string)
     = Ok ["slc4a1a"; "tbxta"; "slc4a1a"]%string
  /\ st_setup None (mkPresses false false) (fun _ => None)
              ["myod1"; "tbxta"]%string
     = (Some [0%nat], Raise ValueError).
Proof.
  assert (I : In default_gene ["myod1"; "slc4a1a"; "tbxta"]%string)
    by (cbn; tauto).
  assert (N : ~ In default_gene ["myod1"; "tbxta"]%string)
    by (cbn; intuition (try discriminate)).
  split; [exact I|]. split; [exact N|]. split.
  - rewrite (proj2 (proj2 (st_setup_selects_one_gene_per_dropdown
                             (Some [0; 1]%nat) (mkPresses true false)
                             (fun key => if (key =? 1)%nat
                                         then Some "tbxta"%string
                                         else None)
                             ["myod1"; "slc4a1a"; "tbxta"]%string)) I).
    reflexivity.
  - destruct (st_setup_selects_one_gene_per_dropdown None
                (mkPresses false false) (fun _ => None)
                ["myod1"; "tbxta"]%string) as [A [B _]].
    specialize (B N).
    destruct (st_setup None (mkPresses false false) (fun _ => None)
                       ["myod1"; "tbxta"]%string) as [s r].
    cbn [fst snd] in A, B. rewrite A, B. reflexivity.
Defined.

(** ** The data directory *)

Lemma split_nonempty (sep : ascii) (s : string) : PyStr.split sep s <> [].
Proof.
  destruct s as [|a s]; cbn [PyStr.split]; [discriminate|].
  destruct (Ascii.eqb a sep); [discriminate|].
  destruct (PyStr.split sep s); discriminate.
Qed.

Lemma join_cons (sep w : string) (v : string) (rest : list string) :
  PyStr.join sep (w :: v :: rest)
  = (w ++ sep ++ PyStr.join sep (v :: rest))%string.
Proof. reflexivity. Qed.

Lemma join_split (sep : ascii) (s : string) :
  PyStr.join (String sep EmptyString) (PyStr.split sep s) = s.
Proof.
  induction s as [|a s IH]; [reflexivity|].
  cbn [PyStr.split]. destruct (Ascii.eqb_spec a sep) as [E|N].
  - subst a. pose proof (split_nonempty sep s) as Hne.
    destruct (PyStr.split sep s) as [|w ws]; [congruence|].
    rewrite join_cons, IH. reflexivity.
  - pose proof (split_nonempty sep s) as Hne.
    destruct (PyStr.split sep s) as [|w ws]; [congruence|].
    destruct ws as [|v ws].
    + cbn [PyStr.join] in *. now rewrite IH.
    + rewrite join_cons. rewrite join_cons in IH.
      rewrite <- IH. reflexivity.
Qed.

Lemma split_app (sep : ascii) (d f : string) :
  PyStr.split sep (d ++ String sep f)
  = (PyStr.split sep d ++ PyStr.split sep f)%list.
Proof.
  induction d as [|a d IH]; cbn [append PyStr.split].
  - rewrite Ascii.eqb_refl. reflexivity.
  - destruct (Ascii.eqb a sep); rewrite IH; [reflexivity|].
    pose proof (split_nonempty sep d) as Hne.
    destruct (PyStr.split sep d) as [|w ws]; [congruence | reflexivity].
Qed.

Lemma split_plain (sep : ascii) (f : string) :
  (forall a, In a (list_ascii_of_string f) -> a <> sep) ->
  PyStr.split sep f = [f].
Proof.
  induction f as [|a f IH]; intros H; [reflexivity|].
  cbn [PyStr.split]. cbn [list_ascii_of_string] in H.
  destruct (Ascii.eqb_spec a sep) as [E|N].
  - exfalso. apply (H a); [now left | exact E].
  - rewrite IH; [reflexivity|]. intros b Hb. apply H. now right.
Qed.

(** Splitting a string at the slashes and joining the pieces with
    slashes gives the string back.  Hence the data directory is the
    directory part of the script path followed by [/data]; for a script
    path without any slash it is [/data], a directory at the root of
    the file system and not next to the script. *)
Theorem data_path_is_beside_the_script (dir file : string) :
  (forall a, In a (list_ascii_of_string file) -> a <> "/"%char) ->
  data_path (dir ++ "/" ++ file) = (dir ++ "/data")%string
  /\ data_path file = "/data"%string
  /\ forall s, PyStr.join "/" (PyStr.split "/"%char s) = s.
Proof.
  intros H. split; [|split].
  - unfold data_path. cbn [append].
    rewrite split_app, (split_plain _ _ H), removelast_last, join_split.
    reflexivity.
  - unfold data_path. rewrite (split_plain _ _ H). reflexivity.
  - intros s. apply join_split.
Qed.

Lemma data_path_is_beside_the_script_witness :
  (forall a, In a (list_ascii_of_string "plot_corr.py") -> a <> "/"%char)
  /\ data_path "corr/plot_corr.py" = "corr/data"%string
  /\ data_path "/srv/app/corr/plot_corr.py" = "/srv/app/corr/data"%string
  /\ data_path "plot_corr.py" = "/data"%string.
Proof.
  assert (H : forall a, In a (list_ascii_of_string "plot_corr.py")
                        -> a <> "/"%char).
  { intros a Ha. cbn in Ha.
    repeat (destruct Ha as [<-|Ha]; [discriminate|]). contradiction. }
  split; [exact H|]. split; [|split].
  - apply (data_path_is_beside_the_script "corr" "plot_corr.py" H).
  - apply (data_path_is_beside_the_script "/srv/app/corr" "plot_corr.py" H).
  - apply (data_path_is_beside_the_script "corr" "plot_corr.py" H).
Defined.

(** ** [main] *)

(** When [main] completes a run it has drawn exactly one figure per
    dropdown, in dropdown order, each being what [plot_genes] returns
    for the gene that dropdown shows, and every such gene is a key of
    the gene dictionary. *)
Theorem main_draws_one_figure_per_dropdown
        (color_dict : Py.dict string) (gene_dict : PlotCorr.GeneDict)
        (session : option (list nat)) (p : Presses)
        (choice : nat -> option string)
        (figs : list (string * PlotCorr.Figure)) :
  snd (main_figures color_dict gene_dict session p choice) = Ok figs ->
  exists selected,
    snd (st_setup session p choice (Py.keys gene_dict)) = Ok selected
    /\ map fst figs = selected
    /\ List.length figs = List.length (update_selectboxes session p)
    /\ Forall (fun gf =>
                 PlotCorr.plot_genes color_dict (fst gf) gene_dict
                 = Ok (snd gf)
                 /\ In (fst gf) (Py.keys gene_dict))
              figs.
Proof.
  unfold main_figures. cbn [st_setup snd].
  destruct (PyStr.index default_gene (Py.keys gene_dict)) as [n|] eqn:En;
    [|discriminate].
  cbn [Py.bind]. intros H. eexists. split; [reflexivity|].
  apply GridFacts.comprehension_Forall2 in H.
  assert (P : Forall2 (fun gene gf =>
                         PlotCorr.plot_genes color_dict gene gene_dict
                         = Ok (snd gf) /\ fst gf = gene)
                      (map (selectbox (Py.keys gene_dict) choice n)
                           (update_selectboxes session p)) figs).
  { clear - H. induction H as [|g gf gs gfs Hg H IH]; constructor; auto.
    destruct (PlotCorr.plot_genes color_dict g gene_dict) as [fig|];
      [|discriminate].
    cbn in Hg. injection Hg as <-. split; reflexivity. }
  split; [|split].
  - clear - P. induction P as [|g gf gs gfs [_ E] P IH]; [reflexivity|].
    cbn [map]. now rewrite E, IH.
  - rewrite <- (Forall2_length P). apply length_map.
  - clear - P. induction P as [|g gf gs gfs [E F] P IH]; constructor; auto.
    subst g. split; [exact E|].
    pose proof (RenderFacts.plot_genes_traces _ _ _ _ E) as T.
    inversion T as [|item t items ts [rna [atac [colors [names [D _]]]]] _ Hi Ht].
    unfold Spec.sample_data in D.
    destruct (Py.getitem gene_dict (fst gf)) as [by_sample|] eqn:G;
      [|discriminate].
    apply PaletteFacts.getitem_In in G.
    apply in_map_iff. exists (fst gf, by_sample). auto.
Qed.

Lemma main_draws_one_figure_per_dropdown_witness :
  exists figs,
    snd (main_figures Samples.sample_palette Samples.flat_expression
                      None (mkPresses false false) (fun _ => None))
    = Ok figs
    /\ map fst figs = ["slc4a1a"%string].
Proof.
  eassert (E : snd (main_figures Samples.sample_palette
                                 Samples.flat_expression None
                                 (mkPresses false false) (fun _ => None))
               = Ok _) by (vm_compute; reflexivity).
  destruct (main_draws_one_figure_per_dropdown _ _ _ _ _ _ E)
    as [selected [S [M _]]].
  eexists. split; [exact E|]. rewrite M.
  cbn in S. injection S as <-. reflexivity.
Defined.

End AppFacts.
